(** * Join state and uplink counter persistence of the LoRa-E5 end device

    A shallow embedding of [src/main.cpp] (with the configuration of
    [src/LoRa_Device_01.h]): the two storage tiers (emulated EEPROM and RTC
    backup registers), the boot-time counter retrieval [retrieve_fcnt], the
    join decision of [setup], [send_packet], the LMIC event callback
    [onLmicEvent] and the sleep computation of [loop].

    Conventions.
    - [uint32_t] values are integers in [Z]; every arithmetic result that the
      C code stores in a 32-bit object is wrapped explicitly with [u32];
      [int32_t xmitcount] is obtained from a register with [i32].
    - Global variables become fields of the record [device]; a function of
      the program is a function [device -> device].
    - Serial output ([debug_printf], [get_rtc_time]) and the wall-clock part
      of the RTC carry no state that the program reads back and are left out
      of [device]; the formatting done by [showOTAAkeys] is modelled on its
      two buffers.
    - The LMIC radio stack is an external library: the operations the
      program calls are the methods of the class [RadioStack], the fields of
      the global [LMIC] struct that the program reads or writes are the
      record [lmic_t]. *)

From Stdlib Require Import ZArith List Bool Lia Ascii String DecimalString Sorted.
From Stdlib Require DecimalFacts DecimalPos DecimalZ.
Import ListNotations.
Local Open Scope Z_scope.

(** ** Machine integers *)

Definition u32 (x : Z) : Z := x mod 2 ^ 32.

(** Conversion of a 32-bit pattern to [int32_t]. *)
Definition i32 (x : Z) : Z := (x + 2 ^ 31) mod 2 ^ 32 - 2 ^ 31.

(** [memcpy (dst, src, n)] on byte arrays held as lists. *)
Definition memcpy (dst src : list Z) (n : nat) : list Z :=
  firstn n src ++ skipn n dst.

(** ** Constants of main.cpp and LoRa_Device_01.h *)

Definition DATAVALID : Z := 67329752.
Definition RTC_BKP_DR10 : Z := 10.
Definition RTC_BKP_DR11 : Z := 11.
Definition RTC_BKP_DR12 : Z := 12.
Definition BKP_R_DATAVALID : Z := RTC_BKP_DR10.
Definition BKP_R_FCNT : Z := RTC_BKP_DR11.
Definition BKP_R_XMITCNT : Z := RTC_BKP_DR12.
Definition REJOIN_LIMIT : Z := 300.

Definition JOINMODE_OTAA : Z := 1.
Definition JOINMODE_ABP : Z := 2.
Definition tx_interval_sec : Z := 60.

Definition DevAddr_init : Z := 0x260B05E3.
Definition NwkSKey_init : list Z :=
  [0x37; 0x84; 0x9B; 0x30; 0x33; 0xEE; 0x5A; 0xD1;
   0x37; 0xDB; 0xDE; 0x8C; 0x00; 0xD3; 0x51; 0x8B].
Definition AppSKey_init : list Z :=
  [0x5C; 0x4E; 0x2A; 0x28; 0x22; 0xBB; 0x93; 0x4E;
   0x99; 0xA4; 0x19; 0xA9; 0xDA; 0x34; 0x5F; 0x8E].

(** ** Data *)

(** [struct eepromdata_t].  [readEEPROMdata] and [saveEEPROMdata] copy the
    whole struct byte by byte, so the EEPROM holds one image of it. *)
Record eepromdata_t := mk_eepromdata {
  datavalid : Z;
  fcnt : Z;
  joinedFlag : bool;
  devaddr : Z;
  nwkSKey : list Z;
  appSKey : list Z
}.

(** The fields of the global [LMIC] that main.cpp touches:
    [LMIC.opmode], [LMIC.seqnoUp], [LMIC.devaddr], [LMIC.lceCtx.nwkSKey]
    and [LMIC.lceCtx.appSKey]. *)
Record lmic_t := mk_lmic {
  opmode : Z;
  seqnoUp : Z;
  lmic_devaddr : Z;
  lmic_nwkSKey : list Z;
  lmic_appSKey : list Z
}.

(** Events delivered to [onLmicEvent]; [EV_other] stands for every member of
    [ev_t] that falls in the [default] case. *)
Inductive ev_t := EV_JOINED | EV_TXDONE | EV_TXCOMPLETE | EV_other (code : Z).

(** The radio stack as the program sees it. *)
Class RadioStack := {
  OP_TXRXPEND : Z;
  LMIC_reset : lmic_t -> lmic_t;
  LMIC_setSession : Z -> Z -> list Z -> list Z -> lmic_t -> lmic_t;
  LMIC_setTxData2 : Z -> string -> Z -> Z -> lmic_t -> lmic_t;
  LMIC_setLinkCheckMode : Z -> lmic_t -> lmic_t
}.

(** The whole device: the two persistent tiers, then the RAM globals. *)
Record device := mk_device {
  EEPROM : eepromdata_t;
  bkp : Z -> Z;
  eepromdata : eepromdata_t;
  xmitcount : Z;
  tx_finished : bool;
  JoinMode : Z;
  DevAddr : Z;
  NwkSKey : list Z;
  AppSKey : list Z;
  LMIC : lmic_t;
  led : bool
}.

(** *** Field updates *)

Definition set_datavalid (v : Z) (e : eepromdata_t) : eepromdata_t :=
  mk_eepromdata v (fcnt e) (joinedFlag e) (devaddr e) (nwkSKey e) (appSKey e).
Definition set_fcnt (v : Z) (e : eepromdata_t) : eepromdata_t :=
  mk_eepromdata (datavalid e) v (joinedFlag e) (devaddr e) (nwkSKey e) (appSKey e).
Definition set_joinedFlag (v : bool) (e : eepromdata_t) : eepromdata_t :=
  mk_eepromdata (datavalid e) (fcnt e) v (devaddr e) (nwkSKey e) (appSKey e).
Definition set_devaddr (v : Z) (e : eepromdata_t) : eepromdata_t :=
  mk_eepromdata (datavalid e) (fcnt e) (joinedFlag e) v (nwkSKey e) (appSKey e).
Definition set_nwkSKey (v : list Z) (e : eepromdata_t) : eepromdata_t :=
  mk_eepromdata (datavalid e) (fcnt e) (joinedFlag e) (devaddr e) v (appSKey e).
Definition set_appSKey (v : list Z) (e : eepromdata_t) : eepromdata_t :=
  mk_eepromdata (datavalid e) (fcnt e) (joinedFlag e) (devaddr e) (nwkSKey e) v.

Definition set_seqnoUp (v : Z) (l : lmic_t) : lmic_t :=
  mk_lmic (opmode l) v (lmic_devaddr l) (lmic_nwkSKey l) (lmic_appSKey l).

Definition with_EEPROM (v : eepromdata_t) (s : device) : device :=
  mk_device v (bkp s) (eepromdata s) (xmitcount s) (tx_finished s)
            (JoinMode s) (DevAddr s) (NwkSKey s) (AppSKey s) (LMIC s) (led s).
Definition with_bkp (v : Z -> Z) (s : device) : device :=
  mk_device (EEPROM s) v (eepromdata s) (xmitcount s) (tx_finished s)
            (JoinMode s) (DevAddr s) (NwkSKey s) (AppSKey s) (LMIC s) (led s).
Definition with_eepromdata (v : eepromdata_t) (s : device) : device :=
  mk_device (EEPROM s) (bkp s) v (xmitcount s) (tx_finished s)
            (JoinMode s) (DevAddr s) (NwkSKey s) (AppSKey s) (LMIC s) (led s).
Definition with_xmitcount (v : Z) (s : device) : device :=
  mk_device (EEPROM s) (bkp s) (eepromdata s) v (tx_finished s)
            (JoinMode s) (DevAddr s) (NwkSKey s) (AppSKey s) (LMIC s) (led s).
Definition with_tx_finished (v : bool) (s : device) : device :=
  mk_device (EEPROM s) (bkp s) (eepromdata s) (xmitcount s) v
            (JoinMode s) (DevAddr s) (NwkSKey s) (AppSKey s) (LMIC s) (led s).
Definition with_JoinMode (v : Z) (s : device) : device :=
  mk_device (EEPROM s) (bkp s) (eepromdata s) (xmitcount s) (tx_finished s)
            v (DevAddr s) (NwkSKey s) (AppSKey s) (LMIC s) (led s).
Definition with_DevAddr (v : Z) (s : device) : device :=
  mk_device (EEPROM s) (bkp s) (eepromdata s) (xmitcount s) (tx_finished s)
            (JoinMode s) v (NwkSKey s) (AppSKey s) (LMIC s) (led s).
Definition with_NwkSKey (v : list Z) (s : device) : device :=
  mk_device (EEPROM s) (bkp s) (eepromdata s) (xmitcount s) (tx_finished s)
            (JoinMode s) (DevAddr s) v (AppSKey s) (LMIC s) (led s).
Definition with_AppSKey (v : list Z) (s : device) : device :=
  mk_device (EEPROM s) (bkp s) (eepromdata s) (xmitcount s) (tx_finished s)
            (JoinMode s) (DevAddr s) (NwkSKey s) v (LMIC s) (led s).
Definition with_LMIC (v : lmic_t) (s : device) : device :=
  mk_device (EEPROM s) (bkp s) (eepromdata s) (xmitcount s) (tx_finished s)
            (JoinMode s) (DevAddr s) (NwkSKey s) (AppSKey s) v (led s).
Definition with_led (v : bool) (s : device) : device :=
  mk_device (EEPROM s) (bkp s) (eepromdata s) (xmitcount s) (tx_finished s)
            (JoinMode s) (DevAddr s) (NwkSKey s) (AppSKey s) (LMIC s) v.

(** ** Peripherals *)

Definition getBackupRegister (index : Z) (s : device) : Z := bkp s index.

Definition setBackupRegister (index value : Z) (s : device) : device :=
  with_bkp (fun i => if i =? index then value else bkp s i) s.

Definition HIGH : bool := true.
Definition LOW : bool := false.
Definition digitalWrite (v : bool) (s : device) : device := with_led v s.
Definition digitalToggle (s : device) : device := with_led (negb (led s)) s.

Definition readEEPROMdata (s : device) : device := with_eepromdata (EEPROM s) s.
Definition saveEEPROMdata (s : device) : device := with_EEPROM (eepromdata s) s.

(** ** retrieve_fcnt (main.cpp 292-344)

    [retrieve_fcnt_flag] is the function up to line 337 and returns the local
    [savflag] next to the state; [retrieve_fcnt] adds the final save. *)

Definition retrieve_fcnt_flag (s : device) : device * bool :=
  let bckVal := getBackupRegister BKP_R_DATAVALID s in
  let bckValid := bckVal =? DATAVALID in
  let s := readEEPROMdata s in
  let '(s, savflag) :=
    if negb (datavalid (eepromdata s) =? DATAVALID) then
      let e := set_datavalid DATAVALID (eepromdata s) in
      let e := set_fcnt 0 e in
      let e := set_joinedFlag false e in
      (with_eepromdata e s, true)
    else
      (with_eepromdata
         (set_fcnt (u32 (fcnt (eepromdata s) + 101)) (eepromdata s)) s,
       false) in
  if bckValid then
    let bckVal := getBackupRegister BKP_R_FCNT s in
    let s := with_xmitcount (i32 (getBackupRegister BKP_R_XMITCNT s)) s in
    let savflag :=
      if bckVal >? u32 (fcnt (eepromdata s) + 100) then true else savflag in
    (with_eepromdata (set_fcnt bckVal (eepromdata s)) s, savflag)
  else
    let s := setBackupRegister BKP_R_DATAVALID DATAVALID s in
    let s := setBackupRegister BKP_R_FCNT (fcnt (eepromdata s)) s in
    let s := setBackupRegister BKP_R_XMITCNT REJOIN_LIMIT s in
    (with_xmitcount REJOIN_LIMIT s, savflag).

Definition retrieve_fcnt (s : device) : device :=
  let '(s, savflag) := retrieve_fcnt_flag s in
  if savflag then saveEEPROMdata s else s.

(** ** The sleep computation of loop (main.cpp 510-516)

    Returns [(sleeptime, sleeptime_sec)] for the interval and the value of
    [millis ()]. *)

Definition nominal_sleeptime (interval millis : Z) : Z :=
  u32 (u32 (u32 (interval * 1000) - millis) - 50).

Definition sleep_times (interval millis : Z) : Z * Z :=
  let sleeptime := nominal_sleeptime interval millis in
  let sleeptime_sec := sleeptime / 1000 in
  if sleeptime_sec >? interval
  then (u32 (interval * 1000), interval)
  else (sleeptime, sleeptime_sec).

(** ** The states of the session policy

    main.cpp has no such type: the names are those of the two branches taken
    at lines 432-449. *)
Inductive session_state := NeedsJoin | ResumingSession.

(** The state of the device when [main] starts after a wake-up: from deep
    sleep ([LowPower.shutdown]) or after a warm reset the backup domain is
    intact, after a cold power loss it has been dropped and its registers
    read as zero.  In both cases the EEPROM is kept, the RAM globals take
    their static initialisers and the LED pin is low. *)
Inductive wake := WarmWake | ColdWake.

Definition zero_eepromdata : eepromdata_t :=
  mk_eepromdata 0 0 false 0 (repeat 0 16) (repeat 0 16).
Definition zero_lmic : lmic_t :=
  mk_lmic 0 0 0 (repeat 0 16) (repeat 0 16).

Definition reset (w : wake) (s : device) : device :=
  mk_device (EEPROM s)
            (match w with WarmWake => bkp s | ColdWake => fun _ => 0 end)
            zero_eepromdata 0 false JOINMODE_OTAA
            DevAddr_init NwkSKey_init AppSKey_init zero_lmic LOW.

(** The counter that [retrieve_fcnt] leaves in [eepromdata.fcnt]. *)
Definition effective_counter (s : device) : Z :=
  fcnt (eepromdata (retrieve_fcnt s)).

Definition durable_valid (s : device) : Prop := datavalid (EEPROM s) = DATAVALID.
Definition fast_valid (s : device) : Prop :=
  getBackupRegister BKP_R_DATAVALID s = DATAVALID.

Section Program.
Context {radio : RadioStack}.

(** ** saveOTAAkeys (main.cpp 151-159) *)

Definition saveOTAAkeys (s : device) : device :=
  let e := set_devaddr (lmic_devaddr (LMIC s)) (eepromdata s) in
  let e := set_nwkSKey (memcpy (nwkSKey e) (lmic_nwkSKey (LMIC s)) 16) e in
  let e := set_appSKey (memcpy (appSKey e) (lmic_appSKey (LMIC s)) 16) e in
  let e := set_joinedFlag true e in
  saveEEPROMdata (with_eepromdata e s).

(** ** onLmicEvent (main.cpp 188-229) *)

Definition onLmicEvent (ev : ev_t) (s : device) : device :=
  match ev with
  | EV_JOINED => with_LMIC (LMIC_setLinkCheckMode 0 (LMIC s)) s
  | EV_TXDONE => s
  | EV_TXCOMPLETE =>
      let s := with_eepromdata (set_fcnt (seqnoUp (LMIC s)) (eepromdata s)) s in
      let s := setBackupRegister BKP_R_FCNT (fcnt (eepromdata s)) s in
      with_tx_finished true s
  | EV_other _ => s
  end.

(** ** send_packet (main.cpp 238-258)

    [sprintf] prints the 32-bit counter with [%d], that is as an [int]. *)

Definition payload_of (n : Z) : string :=
  ("Test " ++ NilZero.string_of_int (Z.to_int (i32 n)))%string.

Definition send_packet (s : device) : device :=
  if negb (Z.land (opmode (LMIC s)) OP_TXRXPEND =? 0) then s
  else
    let s := digitalWrite LOW s in
    let payload := payload_of (fcnt (eepromdata s)) in
    let s := with_LMIC (LMIC_setTxData2 1 payload
                          (Z.of_nat (String.length payload)) 0 (LMIC s)) s in
    let s := digitalWrite HIGH s in
    if fcnt (eepromdata s) mod 100 =? 0 then saveEEPROMdata s else s.

(** ** setup (main.cpp 397-486)

    [setup_begin] is lines 401-414: the LED flashes and the reset of the MAC
    state ([LoraBand] is [REGION_EU868], for which [setchannels] and the
    channel loop of lines 416-426 do nothing).  [join_policy] is lines
    429-450 and [abp_session] lines 451-483. *)

Definition setup_begin (s : device) : device :=
  let s := Nat.iter 31 digitalToggle s in
  with_LMIC (LMIC_reset (LMIC s)) s.

Definition already_joined (s : device) : bool :=
  (xmitcount s <? REJOIN_LIMIT) && Bool.eqb (joinedFlag (eepromdata s)) true.

Definition select (s : device) : session_state :=
  if already_joined s then ResumingSession else NeedsJoin.

Definition join_policy (s : device) : device :=
  if JoinMode s =? JOINMODE_OTAA then
    if already_joined s then
      let s := with_DevAddr (devaddr (eepromdata s)) s in
      let s := with_NwkSKey (memcpy (NwkSKey s) (nwkSKey (eepromdata s)) 16) s in
      let s := with_AppSKey (memcpy (AppSKey s) (appSKey (eepromdata s)) 16) s in
      let s := with_xmitcount (xmitcount s + 1) s in
      let s := setBackupRegister BKP_R_XMITCNT (u32 (xmitcount s)) s in
      with_JoinMode JOINMODE_ABP s
    else
      let s := with_xmitcount 0 s in
      let s := setBackupRegister BKP_R_XMITCNT (u32 (xmitcount s)) s in
      let s := with_eepromdata (set_joinedFlag false (eepromdata s)) s in
      saveEEPROMdata s
  else s.

Definition abp_session (s : device) : device :=
  if JoinMode s =? JOINMODE_ABP then
    let s := with_LMIC (LMIC_setSession 1 (DevAddr s) (NwkSKey s) (AppSKey s)
                          (LMIC s)) s in
    with_LMIC (set_seqnoUp (fcnt (eepromdata s)) (LMIC s)) s
  else s.

(** The state in which line 429 is reached. *)
Definition at_join_decision (s : device) : device :=
  let s := setup_begin s in
  let s := retrieve_fcnt s in
  digitalWrite LOW s.

Definition setup (s : device) : device :=
  let s := at_join_decision s in
  let s := join_policy s in
  let s := abp_session s in
  let s := digitalWrite HIGH s in
  send_packet s.

(** ** loop (main.cpp 494-524)

    One pass of [loop] after [os_runstep] has returned; the events that
    [os_runstep] delivers are applied with [onLmicEvent].  The result carries
    the time handed to [LowPower.shutdown] when the device goes to sleep. *)

Definition loop (millis : Z) (s : device) : device * option Z :=
  if tx_finished s then
    let s := with_tx_finished false s in
    let s := if negb (joinedFlag (eepromdata s)) then saveOTAAkeys s else s in
    (s, Some (fst (sleep_times tx_interval_sec millis)))
  else (s, None).

(** ** Histories of boots

    A boot starts with a wake-up and runs [setup].  Then either the device is
    reset before the radio reports completion, or [EV_TXCOMPLETE] arrives
    with the stack's [LMIC] contents and [loop] sends the device to sleep at
    time [millis]. *)

Record boot := mk_boot {
  wake_kind : wake;
  completion : option (lmic_t * Z)
}.

Definition boot_cycle (b : boot) (s : device) : device :=
  let s := setup (reset (wake_kind b) s) in
  match completion b with
  | None => s
  | Some (l, millis) =>
      fst (loop millis (onLmicEvent EV_TXCOMPLETE (with_LMIC l s)))
  end.

Definition boot_counter (w : wake) (s : device) : Z :=
  effective_counter (setup_begin (reset w s)).

Fixpoint effective_counters (h : list boot) (s : device) : list Z :=
  match h with
  | [] => []
  | b :: h => boot_counter (wake_kind b) s :: effective_counters h (boot_cycle b s)
  end.

(** *** Well-behaved histories

    The conditions under which the counters of a history are compared: the
    stack is idle when [setup] reaches [send_packet]; the counter that the
    stack reports with [EV_TXCOMPLETE] is the counter of the boot or one
    more; and the addition of line 316 does not wrap on a cold boot over a
    valid EEPROM record. *)

Definition radio_idle (d : device) : bool :=
  Z.land (opmode (LMIC d)) OP_TXRXPEND =? 0.

Definition radio_idle_at_send (s : device) : bool :=
  radio_idle (digitalWrite HIGH (abp_session (join_policy (at_join_decision s)))).

Definition boot_ok (b : boot) (s : device) : bool :=
  match wake_kind b with
  | ColdWake =>
      negb (datavalid (EEPROM s) =? DATAVALID)
      || (fcnt (EEPROM s) + 101 <? 2 ^ 32)
  | WarmWake => true
  end
  && radio_idle_at_send (reset (wake_kind b) s)
  && match completion b with
     | None => true
     | Some (l, _) =>
         (boot_counter (wake_kind b) s <=? seqnoUp l)
         && (seqnoUp l <=? boot_counter (wake_kind b) s + 1)
     end.

Fixpoint history_ok (h : list boot) (s : device) : bool :=
  match h with
  | [] => true
  | b :: h => boot_ok b s && history_ok h (boot_cycle b s)
  end.

(** Every boot of the history completes its uplink, and the stack reports
    the counter of the boot plus one. *)
Fixpoint history_advances (h : list boot) (s : device) : bool :=
  match h with
  | [] => true
  | b :: h =>
      match completion b with
      | Some (l, _) => seqnoUp l =? boot_counter (wake_kind b) s + 1
      | None => false
      end
      && history_advances h (boot_cycle b s)
  end.

End Program.

(** The two tiers agree when, both being valid, the counter of the backup
    register is not beyond the next multiple of 100 above the counter in
    EEPROM, which is where [send_packet] saves the record again. *)
Definition tiers_consistent (s : device) : Prop :=
  0 <= fcnt (EEPROM s) /\
  0 <= getBackupRegister BKP_R_FCNT s /\
  (durable_valid s -> fast_valid s ->
   getBackupRegister BKP_R_FCNT s <= 100 * (fcnt (EEPROM s) / 100 + 1)).

(** ** A sample radio stack and sample devices, for closed examples

    [sample_stack] keeps the visible part of what LMIC does: a reset clears
    the MAC state, a session starts counting at zero, queueing data raises
    the [OP_TXDATA] bit. *)

Definition sample_stack : RadioStack := {|
  OP_TXRXPEND := 0x0080;
  LMIC_reset := fun _ => zero_lmic;
  LMIC_setSession := fun _ a nwk app l => mk_lmic (opmode l) 0 a nwk app;
  LMIC_setTxData2 := fun _ _ _ _ l =>
    mk_lmic (Z.lor (opmode l) 0x0008) (seqnoUp l) (lmic_devaddr l)
            (lmic_nwkSKey l) (lmic_appSKey l);
  LMIC_setLinkCheckMode := fun _ l => l
|}.

Definition sample_key1 : list Z := map Z.of_nat (seq 1 16).
Definition sample_key2 : list Z := map Z.of_nat (seq 101 16).

(** A device whose tiers hold the given records, in the state of a wake-up. *)
Definition device_of (e : eepromdata_t) (b : Z -> Z) : device :=
  reset WarmWake
    (mk_device e b zero_eepromdata 0 false JOINMODE_OTAA
               DevAddr_init NwkSKey_init AppSKey_init zero_lmic LOW).

Definition fast_regs (valid counter transmits : Z) : Z -> Z :=
  fun i => if i =? BKP_R_DATAVALID then valid
           else if i =? BKP_R_FCNT then counter
           else if i =? BKP_R_XMITCNT then transmits else 0.

Definition durable_rec (valid counter : Z) (joined : bool) : eepromdata_t :=
  mk_eepromdata valid counter joined 0x260B1234 sample_key1 sample_key2.

(** Scenario C of the specification: both tiers valid, 200 in EEPROM and 205
    in the backup register. *)
Definition scenario_C : device :=
  device_of (durable_rec DATAVALID 200 true) (fast_regs DATAVALID 205 10).

(** Scenario B: a cold power loss over the same EEPROM record. *)
Definition scenario_B : device :=
  reset ColdWake scenario_C.

(** An erased EEPROM under a backup domain that kept its registers. *)
Definition erased_eeprom_warm : device :=
  device_of (durable_rec 0xFFFFFFFF 0xFFFFFFFF true) (fast_regs DATAVALID 205 10).

(** Both tiers report a joined device, with 300 transmits since the join. *)
Definition rejoin_due : device :=
  device_of (durable_rec DATAVALID 500 true) (fast_regs DATAVALID 541 300).

(** Scenario C with a transmission pending in the stack. *)
Definition pending_device : device :=
  with_LMIC (mk_lmic 0x0080 7 0 [] []) scenario_C.

(** A device that has never run: erased EEPROM, backup domain at reset. *)
Definition fresh_device : device :=
  reset ColdWake erased_eeprom_warm.

(** [LMIC] as the stack leaves it after a join and [n] uplinks. *)
Definition joined_lmic (n : Z) : lmic_t :=
  mk_lmic 0 n 0x260B9999 sample_key2 sample_key1.

(** A cold boot that joins and completes its first uplink, then a wake-up
    from deep sleep. *)
Definition rejoin_history : list boot :=
  [mk_boot ColdWake (Some (joined_lmic 1, 34000)); mk_boot WarmWake None].

(** First boot of a fresh device, a resumed boot, a cold power loss whose
    boot is reset before completion, and a boot after that reset. *)
Definition sample_history : list boot :=
  [mk_boot ColdWake (Some (joined_lmic 1, 34000));
   mk_boot WarmWake (Some (joined_lmic 2, 4000));
   mk_boot ColdWake None;
   mk_boot WarmWake None].

(** First boot of a fresh device and two resumed boots, all completed. *)
Definition advancing_history : list boot :=
  [mk_boot ColdWake (Some (joined_lmic 1, 34000));
   mk_boot WarmWake (Some (joined_lmic 2, 4000));
   mk_boot WarmWake (Some (joined_lmic 3, 4000))].

(** ** The OTAA callbacks (main.cpp 77-103)

    [os_getJoinEui] and [os_getDevEui] run the same loop over their array;
    [copy_eui] is that loop.  [store i v buf] is the assignment
    [buf [i] = v] for an index inside the buffer. *)

Definition JoinEui : list Z := [0x12; 0x15; 0x18; 0x78; 0x66; 0x13; 0xA2; 0x11].
Definition AppKey : list Z :=
  [0x36; 0x9C; 0x9E; 0x8C; 0x5D; 0x68; 0x61; 0x3E;
   0xD9; 0xB9; 0xDD; 0x55; 0x43; 0x7A; 0xA9; 0x70].
Definition DevEui : list Z := [0x70; 0xB3; 0xD5; 0x7E; 0xD0; 0x05; 0xC8; 0x28].

Definition store (i : nat) (v : Z) (buf : list Z) : list Z :=
  firstn i buf ++ v :: skipn (S i) buf.

Definition copy_eui (eui buf : list Z) : list Z :=
  fold_left (fun buf i => store i (nth (7 - i) eui 0) buf) (seq 0 8) buf.

Definition os_getJoinEui (buf : list Z) : list Z := copy_eui JoinEui buf.
Definition os_getDevEui (buf : list Z) : list Z := copy_eui DevEui buf.
Definition os_getNwkKey (buf : list Z) : list Z := memcpy buf AppKey 16.

(** ** readEEPROMdata and saveEEPROMdata byte by byte (main.cpp 118-142)

    The two loops over the [size] bytes of the struct, on the image of the
    struct in memory and the cells of the EEPROM.  [EEPROM.update] writes a
    cell only when its content differs; the second component counts the
    cells written. *)

Module ByteImage.

Definition EEPROM_read (cells : list Z) (i : nat) : Z := nth i cells 0.

Definition EEPROM_update (i : nat) (v : Z) (st : list Z * nat) : list Z * nat :=
  if EEPROM_read (fst st) i =? v then st else (store i v (fst st), S (snd st)).

Definition readEEPROMdata (size : nat) (cells image : list Z) : list Z :=
  fold_left (fun image i => store i (EEPROM_read cells i) image)
            (seq 0 size) image.

Definition saveEEPROMdata (size : nat) (image : list Z) (st : list Z * nat)
  : list Z * nat :=
  fold_left (fun st i => EEPROM_update i (nth i image 0) st) (seq 0 size) st.

(** The cells among the first [size] whose content differs from the image. *)
Definition cells_differing (size : nat) (image cells : list Z) : nat :=
  List.length
    (filter (fun i => negb (nth i cells 0 =? nth i image 0)) (seq 0 size)).

End ByteImage.

(** ** showOTAAkeys (main.cpp 167-180)

    [format_02X v] is the text of [sprintf (p, "%02X ", v)] for a [uint8_t]
    value.  [sprintf_at off text buf] writes the text and its terminator at
    offset [off] of the buffer and is [None] when they do not fit. *)

Definition hex_digit (n : Z) : Ascii.ascii :=
  nth (Z.to_nat n) (list_ascii_of_string "0123456789ABCDEF") "0"%char.

Definition format_02X (v : Z) : string :=
  String (hex_digit (v / 16)) (String (hex_digit (v mod 16)) " ").

Definition sprintf_at (off : nat) (text : string) (buf : list Ascii.ascii)
  : option (list Ascii.ascii) :=
  let n := (off + String.length text + 1)%nat in
  if (n <=? List.length buf)%nat
  then Some (firstn off buf ++ list_ascii_of_string text
               ++ Ascii.zero :: skipn n buf)
  else None.

Definition showOTAAkeys (s : device) (buf1 buf2 : list Ascii.ascii)
  : option (list Ascii.ascii * list Ascii.ascii) :=
  fold_left
    (fun st j =>
       match st with
       | Some (b1, b2) =>
           match sprintf_at (j * 3)
                   (format_02X (nth j (nwkSKey (eepromdata s)) 0)) b1 with
           | Some b1 =>
               match sprintf_at (j * 3)
                       (format_02X (nth j (appSKey (eepromdata s)) 0)) b2 with
               | Some b2 => Some (b1, b2)
               | None => None
               end
           | None => None
           end
       | None => None
       end)
    (seq 0 16) (Some (buf1, buf2)).

(** ** The join decisions of a history *)

Section Decisions.
Context {radio : RadioStack}.

Definition decision (b : boot) (s : device) : session_state :=
  select (at_join_decision (reset (wake_kind b) s)).

Fixpoint decisions (h : list boot) (s : device) : list session_state :=
  match h with
  | [] => []
  | b :: h => decision b s :: decisions h (boot_cycle b s)
  end.

(** The state reached after all the boots of a history. *)
Fixpoint run (h : list boot) (s : device) : device :=
  match h with
  | [] => s
  | b :: h => run h (boot_cycle b s)
  end.

End Decisions.

(** The transmit count register holds a count the program can have written. *)
Definition xmit_in_range (s : device) : Prop :=
  0 <= getBackupRegister BKP_R_XMITCNT s <= REJOIN_LIMIT.

(** * Properties *)

(** ** Machine integers *)

Lemma u32_range (x : Z) : 0 <= u32 x < 2 ^ 32.
Proof. unfold u32. apply Z.mod_pos_bound. lia. Qed.

Lemma u32_small (x : Z) : 0 <= x < 2 ^ 32 -> u32 x = x.
Proof. intros H. unfold u32. now apply Z.mod_small. Qed.

Lemma u32_le (x : Z) : 0 <= x -> u32 x <= x.
Proof. intros H. unfold u32. apply Z.mod_le; lia. Qed.

Lemma i32_small (x : Z) : 0 <= x < 2 ^ 31 -> i32 x = x.
Proof. intros H. unfold i32. rewrite Z.mod_small; lia. Qed.

Lemma memcpy_all (dst src : list Z) (n : nat) :
  List.length src = n -> List.length dst = n -> memcpy dst src n = src.
Proof.
  intros Hs Hd. unfold memcpy.
  rewrite firstn_all2 by lia. rewrite skipn_all2 by lia. apply app_nil_r.
Qed.

(** ** Backup registers *)

Lemma getBackupRegister_eq (i : Z) (s : device) :
  getBackupRegister i s = bkp s i.
Proof. reflexivity. Qed.

(** ** retrieve_fcnt in its four cells *)

Lemma fast_valid_eqb (s : device) :
  fast_valid s <-> (bkp s BKP_R_DATAVALID =? DATAVALID) = true.
Proof. unfold fast_valid, getBackupRegister. symmetry. apply Z.eqb_eq. Qed.

Lemma durable_valid_eqb (s : device) :
  durable_valid s <-> (datavalid (EEPROM s) =? DATAVALID) = true.
Proof. unfold durable_valid. symmetry. apply Z.eqb_eq. Qed.

Ltac tiers s :=
  unfold retrieve_fcnt, retrieve_fcnt_flag, getBackupRegister, readEEPROMdata;
  cbn [eepromdata with_eepromdata bkp EEPROM];
  destruct (bkp s BKP_R_DATAVALID =? DATAVALID) eqn:?Hfast;
  destruct (datavalid (EEPROM s) =? DATAVALID) eqn:?Hdur;
  cbn [negb].

Lemma iter_digitalToggle (n : nat) (s : device) :
  Nat.iter n digitalToggle s = with_led (Nat.iter n negb (led s)) s.
Proof.
  induction n as [ | n IH].
  - now destruct s.
  - rewrite !Nat.iter_succ, IH. reflexivity.
Qed.

Section Properties.
Context {radio : RadioStack}.

Lemma setup_begin_eq (s : device) :
  setup_begin s = with_LMIC (LMIC_reset (LMIC s)) (with_led (negb (led s)) s).
Proof.
  unfold setup_begin. rewrite iter_digitalToggle.
  replace (Nat.iter 31 negb (led s)) with (negb (led s))
    by (destruct (led s); reflexivity).
  reflexivity.
Qed.

Lemma retrieve_fcnt_frame (l : lmic_t) (d : bool) (s : device) :
  retrieve_fcnt (with_LMIC l (with_led d s)) =
  with_LMIC l (with_led d (retrieve_fcnt s)).
Proof.
  unfold retrieve_fcnt, retrieve_fcnt_flag, getBackupRegister, readEEPROMdata.
  simpl.
  destruct (bkp s BKP_R_DATAVALID =? DATAVALID);
    destruct (datavalid (EEPROM s) =? DATAVALID); simpl;
    try destruct (_ >? _); reflexivity.
Qed.

Lemma at_join_decision_eq (s : device) :
  at_join_decision s =
  with_LMIC (LMIC_reset (LMIC s)) (with_led LOW (retrieve_fcnt s)).
Proof.
  unfold at_join_decision. rewrite setup_begin_eq, retrieve_fcnt_frame.
  reflexivity.
Qed.

(** C10.  After [retrieve_fcnt] the validity word of the in-memory record and
    the validity register of the backup domain both hold [DATAVALID],
    whatever the two tiers held before; the record in EEPROM is valid too. *)
Theorem retrieve_fcnt_leaves_both_markers_valid (s : device) :
  datavalid (eepromdata (retrieve_fcnt s)) = DATAVALID /\
  getBackupRegister BKP_R_DATAVALID (retrieve_fcnt s) = DATAVALID /\
  datavalid (EEPROM (retrieve_fcnt s)) = DATAVALID.
Proof.
  tiers s; simpl; try destruct (_ >? _); simpl;
    repeat split; try reflexivity; now apply Z.eqb_eq.
Qed.

(** C9.  When [LMIC.opmode] has the [OP_TXRXPEND] bit, [send_packet] returns
    the device as it found it: nothing is queued ([LMIC] is untouched) and
    the counter, the EEPROM, the backup registers and the LED are unchanged. *)
Theorem send_packet_pending_is_skipped (s : device) :
  Z.land (opmode (LMIC s)) OP_TXRXPEND <> 0 -> send_packet s = s.
Proof.
  intros H. unfold send_packet.
  destruct (Z.eqb_spec (Z.land (opmode (LMIC s)) OP_TXRXPEND) 0) as [E | E].
  - contradiction.
  - reflexivity.
Qed.

(** C6 (as amended).  For every interval and every value of [millis ()] the
    seconds that [loop] derives for the sleep are at most the interval and
    the time in milliseconds that it hands to the sleep is less than one
    second above [interval * 1000]; whenever the seconds derived from the
    nominal [interval * 1000 - millis - 50] (32-bit unsigned, guard 50)
    exceed the interval, the result is exactly [interval * 1000] (32-bit)
    milliseconds and [interval] seconds; and when [millis + 50] is within the
    interval the result is the nominal time, which is at most
    [interval * 1000]. *)
Theorem sleep_times_bounded (interval millis : Z) :
  0 <= interval ->
  snd (sleep_times interval millis) <= interval /\
  fst (sleep_times interval millis) < (interval + 1) * 1000 /\
  (nominal_sleeptime interval millis / 1000 > interval ->
   sleep_times interval millis = (u32 (interval * 1000), interval)) /\
  (0 <= millis -> millis + 50 <= interval * 1000 < 2 ^ 32 ->
   fst (sleep_times interval millis) = interval * 1000 - millis - 50 /\
   fst (sleep_times interval millis) <= interval * 1000).
Proof.
  intros Hi. unfold sleep_times.
  destruct (Z.gtb_spec (nominal_sleeptime interval millis / 1000) interval)
    as [Hgt | Hle]; cbn [fst snd].
  - split; [lia | split; [ | split; [reflexivity | ]]].
    + pose proof (u32_le (interval * 1000)). lia.
    + intros Hm Hr. exfalso.
      unfold nominal_sleeptime in Hgt.
      rewrite (u32_small (interval * 1000)) in Hgt by lia.
      rewrite (u32_small (interval * 1000 - millis)) in Hgt by lia.
      rewrite (u32_small (interval * 1000 - millis - 50)) in Hgt by lia.
      assert ((interval * 1000 - millis - 50) / 1000 <= interval); [ | lia].
      apply Z.div_le_upper_bound; lia.
  - split; [lia | split; [ | split; [lia | ]]].
    + pose proof (Z.mul_succ_div_gt (nominal_sleeptime interval millis) 1000).
      lia.
    + intros Hm Hr. unfold nominal_sleeptime.
      rewrite (u32_small (interval * 1000)) by lia.
      rewrite (u32_small (interval * 1000 - millis)) by lia.
      rewrite (u32_small (interval * 1000 - millis - 50)) by lia.
      lia.
Qed.

(** C2 (as amended).  When both tiers are valid, [retrieve_fcnt] always ends
    with the counter of the backup register as the effective counter; the
    counter of the EEPROM plus 101 is only the value the register is compared
    with: the EEPROM is marked for rewrite, and rewritten with the register's
    counter, exactly when the register exceeds that value plus 100 (32-bit
    arithmetic), and is left as it was otherwise. *)
Theorem retrieve_fcnt_both_valid (s : device) :
  durable_valid s -> fast_valid s ->
  let stale :=
    getBackupRegister BKP_R_FCNT s >? u32 (u32 (fcnt (EEPROM s) + 101) + 100) in
  effective_counter s = getBackupRegister BKP_R_FCNT s /\
  snd (retrieve_fcnt_flag s) = stale /\
  EEPROM (retrieve_fcnt s) =
    (if stale then set_fcnt (getBackupRegister BKP_R_FCNT s) (EEPROM s)
     else EEPROM s) /\
  xmitcount (retrieve_fcnt s) = i32 (getBackupRegister BKP_R_XMITCNT s).
Proof.
  intros Hd Hf. apply durable_valid_eqb in Hd. apply fast_valid_eqb in Hf.
  unfold effective_counter.
  tiers s; try discriminate. simpl.
  destruct (_ >? _); simpl; repeat split; reflexivity.
Qed.

(** C8 (as amended).  When the validity word of the EEPROM record is not
    [DATAVALID], [retrieve_fcnt] clears the joined flag, marks the record for
    rewrite and saves it (valid) in EEPROM; the effective counter is 0 when
    the backup registers are invalid too and is the register's counter when
    they are valid; in both cases the join decision is [NeedsJoin]. *)
Theorem retrieve_fcnt_durable_invalid (s : device) :
  ~ durable_valid s ->
  (~ fast_valid s -> effective_counter s = 0) /\
  (fast_valid s -> effective_counter s = getBackupRegister BKP_R_FCNT s) /\
  joinedFlag (eepromdata (retrieve_fcnt s)) = false /\
  snd (retrieve_fcnt_flag s) = true /\
  EEPROM (retrieve_fcnt s) = eepromdata (retrieve_fcnt s) /\
  datavalid (EEPROM (retrieve_fcnt s)) = DATAVALID /\
  select (at_join_decision s) = NeedsJoin.
Proof.
  intros Hd. rewrite durable_valid_eqb in Hd.
  rewrite at_join_decision_eq. rewrite fast_valid_eqb.
  unfold effective_counter, select, already_joined.
  tiers s; try (exfalso; now apply Hd); simpl.
  - destruct (_ >? _); simpl; rewrite andb_false_r;
      repeat split; try reflexivity; intros H; now destruct H.
  - repeat split; try reflexivity; intros H; discriminate.
Qed.

(** *** The two branches of the join decision *)

Lemma retrieve_fcnt_ram (s : device) :
  JoinMode (retrieve_fcnt s) = JoinMode s /\
  DevAddr (retrieve_fcnt s) = DevAddr s /\
  NwkSKey (retrieve_fcnt s) = NwkSKey s /\
  AppSKey (retrieve_fcnt s) = AppSKey s /\
  LMIC (retrieve_fcnt s) = LMIC s.
Proof.
  tiers s; simpl; try destruct (_ >? _); simpl; repeat split; reflexivity.
Qed.

Lemma at_join_decision_JoinMode (s : device) :
  JoinMode (at_join_decision s) = JoinMode s.
Proof. rewrite at_join_decision_eq. apply retrieve_fcnt_ram. Qed.

Lemma frame_fields (l : lmic_t) (b : bool) (r : device) :
  xmitcount (with_LMIC l (with_led b r)) = xmitcount r /\
  eepromdata (with_LMIC l (with_led b r)) = eepromdata r /\
  EEPROM (with_LMIC l (with_led b r)) = EEPROM r /\
  bkp (with_LMIC l (with_led b r)) = bkp r /\
  NwkSKey (with_LMIC l (with_led b r)) = NwkSKey r /\
  AppSKey (with_LMIC l (with_led b r)) = AppSKey r /\
  LMIC (with_LMIC l (with_led b r)) = l.
Proof. repeat split; reflexivity. Qed.

Lemma at_join_decision_fields (s : device) :
  xmitcount (at_join_decision s) = xmitcount (retrieve_fcnt s) /\
  eepromdata (at_join_decision s) = eepromdata (retrieve_fcnt s) /\
  EEPROM (at_join_decision s) = EEPROM (retrieve_fcnt s) /\
  bkp (at_join_decision s) = bkp (retrieve_fcnt s) /\
  NwkSKey (at_join_decision s) = NwkSKey s /\
  AppSKey (at_join_decision s) = AppSKey s /\
  LMIC (at_join_decision s) = LMIC_reset (LMIC s).
Proof.
  rewrite at_join_decision_eq.
  destruct (frame_fields (LMIC_reset (LMIC s)) LOW (retrieve_fcnt s))
    as (-> & -> & -> & -> & -> & -> & ->).
  destruct (retrieve_fcnt_ram s) as (_ & _ & -> & -> & _).
  repeat split; reflexivity.
Qed.

Lemma already_joined_eq (d : device) :
  already_joined d =
  (xmitcount d <? REJOIN_LIMIT) && Bool.eqb (joinedFlag (eepromdata d)) true.
Proof. reflexivity. Qed.

Lemma already_joined_at_decision (s : device) :
  already_joined (at_join_decision s) = already_joined (retrieve_fcnt s).
Proof.
  rewrite !already_joined_eq.
  destruct (at_join_decision_fields s) as (-> & -> & _). reflexivity.
Qed.

Lemma send_packet_frame (s : device) :
  bkp (send_packet s) = bkp s /\
  xmitcount (send_packet s) = xmitcount s /\
  JoinMode (send_packet s) = JoinMode s /\
  eepromdata (send_packet s) = eepromdata s /\
  (EEPROM (send_packet s) = EEPROM s \/ EEPROM (send_packet s) = eepromdata s).
Proof.
  unfold send_packet.
  destruct (negb _); [ now repeat split; try left | ].
  simpl. destruct (_ =? 0); simpl; repeat split; auto.
Qed.

(** The state that [setup] hands to [send_packet]. *)
Lemma setup_eq (s : device) :
  setup s =
  send_packet (digitalWrite HIGH (abp_session (join_policy (at_join_decision s)))).
Proof. reflexivity. Qed.

Lemma join_branch (d : device) :
  JoinMode d = JOINMODE_OTAA -> already_joined d = false ->
  let d' := digitalWrite HIGH (abp_session (join_policy d)) in
  abp_session (join_policy d) = join_policy d /\
  LMIC d' = LMIC d /\
  JoinMode d' = JOINMODE_OTAA /\
  xmitcount d' = 0 /\
  getBackupRegister BKP_R_XMITCNT d' = 0 /\
  (forall i, i <> BKP_R_XMITCNT -> bkp d' i = bkp d i) /\
  eepromdata d' = set_joinedFlag false (eepromdata d) /\
  EEPROM d' = set_joinedFlag false (eepromdata d).
Proof.
  intros Hj Ha. unfold abp_session, join_policy. rewrite Hj, Ha. simpl.
  rewrite ?Hj. simpl.
  repeat match goal with |- _ /\ _ => split end;
    try reflexivity; try assumption.
  intros i Hi. destruct (Z.eqb_spec i BKP_R_XMITCNT); [contradiction | reflexivity].
Qed.

Lemma resume_branch (d : device) :
  JoinMode d = JOINMODE_OTAA -> already_joined d = true ->
  let d' := digitalWrite HIGH (abp_session (join_policy d)) in
  JoinMode d' = JOINMODE_ABP /\
  DevAddr d' = devaddr (eepromdata d) /\
  NwkSKey d' = memcpy (NwkSKey d) (nwkSKey (eepromdata d)) 16 /\
  AppSKey d' = memcpy (AppSKey d) (appSKey (eepromdata d)) 16 /\
  LMIC d' = set_seqnoUp (fcnt (eepromdata d))
              (LMIC_setSession 1 (DevAddr d') (NwkSKey d') (AppSKey d') (LMIC d)) /\
  xmitcount d' = xmitcount d + 1 /\
  getBackupRegister BKP_R_XMITCNT d' = u32 (xmitcount d + 1) /\
  (forall i, i <> BKP_R_XMITCNT -> bkp d' i = bkp d i) /\
  eepromdata d' = eepromdata d /\
  EEPROM d' = EEPROM d.
Proof.
  intros Hj Ha. unfold abp_session, join_policy. rewrite Hj, Ha. simpl.
  rewrite ?Hj. simpl.
  repeat match goal with |- _ /\ _ => split end;
    try reflexivity; try assumption.
  intros i Hi. destruct (Z.eqb_spec i BKP_R_XMITCNT); [contradiction | reflexivity].
Qed.

Lemma retrieve_fcnt_fast_valid (s : device) :
  fast_valid s ->
  xmitcount (retrieve_fcnt s) = i32 (getBackupRegister BKP_R_XMITCNT s) /\
  bkp (retrieve_fcnt s) = bkp s /\
  effective_counter s = getBackupRegister BKP_R_FCNT s /\
  devaddr (eepromdata (retrieve_fcnt s)) = devaddr (EEPROM s) /\
  nwkSKey (eepromdata (retrieve_fcnt s)) = nwkSKey (EEPROM s) /\
  appSKey (eepromdata (retrieve_fcnt s)) = appSKey (EEPROM s) /\
  (durable_valid s ->
   joinedFlag (eepromdata (retrieve_fcnt s)) = joinedFlag (EEPROM s)).
Proof.
  intros Hf. apply fast_valid_eqb in Hf. unfold effective_counter, durable_valid.
  tiers s; try discriminate; simpl; try destruct (_ >? _); simpl;
    repeat match goal with |- _ /\ _ => split end; try reflexivity.
  all: intros H; apply Z.eqb_eq in H; congruence.
Qed.

Lemma retrieve_fcnt_fast_invalid (s : device) :
  ~ fast_valid s ->
  xmitcount (retrieve_fcnt s) = REJOIN_LIMIT /\
  getBackupRegister BKP_R_XMITCNT (retrieve_fcnt s) = REJOIN_LIMIT /\
  getBackupRegister BKP_R_FCNT (retrieve_fcnt s) = effective_counter s /\
  (durable_valid s -> effective_counter s = u32 (fcnt (EEPROM s) + 101)).
Proof.
  intros Hf. rewrite fast_valid_eqb in Hf. unfold effective_counter, durable_valid.
  tiers s; try (exfalso; now apply Hf); simpl;
    repeat match goal with |- _ /\ _ => split end; try reflexivity.
  intros H. apply Z.eqb_eq in H. congruence.
Qed.

Lemma select_NeedsJoin (d : device) :
  select d = NeedsJoin <-> already_joined d = false.
Proof. unfold select. destruct (already_joined d); split; congruence. Qed.

Lemma select_ResumingSession (d : device) :
  select d = ResumingSession <-> already_joined d = true.
Proof. unfold select. destruct (already_joined d); split; congruence. Qed.

(** A boot on which the join decision is [NeedsJoin]. *)
Lemma needs_join_boot (s : device) :
  JoinMode s = JOINMODE_OTAA ->
  select (at_join_decision s) = NeedsJoin ->
  joinedFlag (EEPROM (setup s)) = false /\
  getBackupRegister BKP_R_XMITCNT (setup s) = 0 /\
  xmitcount (setup s) = 0 /\
  JoinMode (setup s) = JOINMODE_OTAA /\
  LMIC (digitalWrite HIGH (abp_session (join_policy (at_join_decision s)))) =
    LMIC_reset (LMIC s).
Proof.
  intros Hj Hs. apply select_NeedsJoin in Hs.
  rewrite <- at_join_decision_JoinMode in Hj.
  destruct (join_branch _ Hj Hs) as (_ & Hl & Hm & Hx & Hb & _ & He & HE).
  rewrite setup_eq.
  destruct (send_packet_frame
              (digitalWrite HIGH (abp_session (join_policy (at_join_decision s)))))
    as (Fb & Fx & Fm & _ & FE).
  rewrite ?getBackupRegister_eq in *. rewrite Fb, Fx, Fm.
  split; [ | split; [ | split; [ | split ]]].
  - destruct FE as [-> | ->]; [rewrite HE | rewrite He]; reflexivity.
  - exact Hb.
  - exact Hx.
  - exact Hm.
  - rewrite Hl. apply at_join_decision_fields.
Qed.

(** A boot on which the join decision is [ResumingSession]. *)
Lemma resuming_boot (s : device) :
  JoinMode s = JOINMODE_OTAA ->
  select (at_join_decision s) = ResumingSession ->
  let d := digitalWrite HIGH (abp_session (join_policy (at_join_decision s))) in
  fast_valid s /\
  JoinMode (setup s) = JOINMODE_ABP /\
  DevAddr d = devaddr (EEPROM s) /\
  NwkSKey d = memcpy (NwkSKey s) (nwkSKey (EEPROM s)) 16 /\
  AppSKey d = memcpy (AppSKey s) (appSKey (EEPROM s)) 16 /\
  LMIC d = set_seqnoUp (effective_counter s)
             (LMIC_setSession 1 (DevAddr d) (NwkSKey d) (AppSKey d)
                (LMIC_reset (LMIC s))) /\
  xmitcount (setup s) = i32 (getBackupRegister BKP_R_XMITCNT s) + 1 /\
  getBackupRegister BKP_R_XMITCNT (setup s) =
    u32 (i32 (getBackupRegister BKP_R_XMITCNT s) + 1) /\
  i32 (getBackupRegister BKP_R_XMITCNT s) < REJOIN_LIMIT.
Proof.
  intros Hj Hs. cbv zeta. apply select_ResumingSession in Hs.
  destruct (at_join_decision_fields s) as (Hdx & Hde & _ & _ & Hdn & Hdk & Hdl).
  assert (Hlt : xmitcount (retrieve_fcnt s) < REJOIN_LIMIT).
  { pose proof Hs as Hs'. rewrite already_joined_at_decision in Hs'.
    rewrite already_joined_eq in Hs'.
    apply andb_prop in Hs'. apply Z.ltb_lt. exact (proj1 Hs'). }
  assert (Hf : fast_valid s).
  { destruct (Z.eq_dec (getBackupRegister BKP_R_DATAVALID s) DATAVALID) as [E | E];
      [exact E | exfalso].
    destruct (retrieve_fcnt_fast_invalid s E) as (Hx & _).
    rewrite Hx in Hlt. revert Hlt. apply Z.lt_irrefl. }
  destruct (retrieve_fcnt_fast_valid s Hf) as (Hx & Hb & Hc & Ha & Hn & Hk & _).
  rewrite <- at_join_decision_JoinMode in Hj.
  pose proof (resume_branch _ Hj Hs) as Hr. cbv zeta in Hr.
  rewrite setup_eq.
  remember (digitalWrite HIGH (abp_session (join_policy (at_join_decision s))))
    as d eqn:Ed.
  destruct Hr as (Hm & HA & HN & HK & HL & HX & HB & _).
  destruct (send_packet_frame d) as (Fb & Fx & Fm & _).
  rewrite ?getBackupRegister_eq in *. rewrite Fb, Fx, Fm.
  rewrite Hde in HA, HN, HK, HL. rewrite Hdx in HX, HB.
  rewrite Hdn, Hn in HN. rewrite Hdk, Hk in HK. rewrite Hdl in HL.
  rewrite Ha in HA. rewrite Hx in HX, HB, Hlt.
  unfold effective_counter.
  repeat match goal with |- _ /\ _ => split end; assumption.
Qed.

(** C3.  Scenario C: with a valid EEPROM record holding counter 200 and the
    joined flag, and valid backup registers holding counter 205 and transmit
    count 10, the effective counter is 205, the join decision is
    [ResumingSession], and [setup] switches to ABP with the device address
    and the two session keys saved in EEPROM, hands them to
    [LMIC_setSession] and sets the stack's uplink counter to 205; the
    transmit count becomes 11. *)
Theorem scenario_C_resumes_session (s : device) :
  JoinMode s = JOINMODE_OTAA ->
  List.length (NwkSKey s) = 16%nat -> List.length (AppSKey s) = 16%nat ->
  List.length (nwkSKey (EEPROM s)) = 16%nat ->
  List.length (appSKey (EEPROM s)) = 16%nat ->
  durable_valid s -> fcnt (EEPROM s) = 200 -> joinedFlag (EEPROM s) = true ->
  fast_valid s -> getBackupRegister BKP_R_FCNT s = 205 ->
  getBackupRegister BKP_R_XMITCNT s = 10 ->
  let d := digitalWrite HIGH (abp_session (join_policy (at_join_decision s))) in
  effective_counter s = 205 /\
  select (at_join_decision s) = ResumingSession /\
  JoinMode (setup s) = JOINMODE_ABP /\
  DevAddr d = devaddr (EEPROM s) /\
  NwkSKey d = nwkSKey (EEPROM s) /\
  AppSKey d = appSKey (EEPROM s) /\
  LMIC d = set_seqnoUp 205
             (LMIC_setSession 1 (devaddr (EEPROM s)) (nwkSKey (EEPROM s))
                (appSKey (EEPROM s)) (LMIC_reset (LMIC s))) /\
  xmitcount (setup s) = 11 /\
  getBackupRegister BKP_R_XMITCNT (setup s) = 11.
Proof.
  intros Hj Ln Lk Len Lek Hd Hc Hjf Hf Hfc Hx d.
  destruct (retrieve_fcnt_fast_valid s Hf) as (Rx & _ & Rc & _ & _ & _ & Rj).
  specialize (Rj Hd).
  assert (Hsel : select (at_join_decision s) = ResumingSession).
  { apply select_ResumingSession.
    rewrite already_joined_at_decision, already_joined_eq.
    rewrite Rx, Rj, Hx, Hjf. reflexivity. }
  destruct (resuming_boot s Hj Hsel) as (_ & Hm & HA & HN & HK & HL & HX & HB & _).
  fold d in HA, HN, HK, HL.
  rewrite memcpy_all in HN by assumption. rewrite memcpy_all in HK by assumption.
  rewrite HA, HN, HK in HL. rewrite Rc, Hfc in HL. rewrite Hx in HX, HB.
  repeat match goal with |- _ /\ _ => split end; try assumption.
  congruence.
Qed.

(** C4.  When the validity register of the backup domain does not hold
    [DATAVALID], [retrieve_fcnt] sets the transmit count (variable and
    register) to [REJOIN_LIMIT] and the join decision is [NeedsJoin] whatever
    the joined flag in EEPROM: [setup] clears the flag, leaves the join mode
    at OTAA and installs no session.  With a valid EEPROM record the
    effective counter is its counter plus 101 (32-bit), 301 for 200. *)
Theorem cold_boot_forces_join (s : device) :
  JoinMode s = JOINMODE_OTAA -> ~ fast_valid s ->
  xmitcount (retrieve_fcnt s) = REJOIN_LIMIT /\
  getBackupRegister BKP_R_XMITCNT (retrieve_fcnt s) = REJOIN_LIMIT /\
  select (at_join_decision s) = NeedsJoin /\
  joinedFlag (EEPROM (setup s)) = false /\
  JoinMode (setup s) = JOINMODE_OTAA /\
  LMIC (digitalWrite HIGH (abp_session (join_policy (at_join_decision s)))) =
    LMIC_reset (LMIC s) /\
  (durable_valid s -> effective_counter s = u32 (fcnt (EEPROM s) + 101)) /\
  (durable_valid s -> fcnt (EEPROM s) = 200 -> effective_counter s = 301).
Proof.
  intros Hj Hf.
  destruct (retrieve_fcnt_fast_invalid s Hf) as (Hx & Hb & _ & Hc).
  assert (Hsel : select (at_join_decision s) = NeedsJoin).
  { apply select_NeedsJoin.
    rewrite already_joined_at_decision, already_joined_eq.
    rewrite Hx. reflexivity. }
  destruct (needs_join_boot s Hj Hsel) as (H1 & _ & _ & H4 & H5).
  repeat match goal with |- _ /\ _ => split end; try assumption.
  intros Hd H200. rewrite (Hc Hd), H200. reflexivity.
Qed.

Lemma send_packet_LMIC (d : device) :
  LMIC (send_packet d) =
  (if Z.land (opmode (LMIC d)) OP_TXRXPEND =? 0
   then LMIC_setTxData2 1 (payload_of (fcnt (eepromdata d)))
          (Z.of_nat (String.length (payload_of (fcnt (eepromdata d))))) 0
          (LMIC d)
   else LMIC d).
Proof.
  unfold send_packet.
  destruct (Z.land (opmode (LMIC d)) OP_TXRXPEND =? 0); [ | reflexivity].
  simpl. destruct (fcnt (eepromdata d) mod 100 =? 0); reflexivity.
Qed.

(** C5.  When the transmit count with which line 432 is reached is at least
    [REJOIN_LIMIT], the join decision is [NeedsJoin] whatever the joined
    flags: [setup] clears the joined flag in EEPROM, writes 0 to the transmit
    count (variable and backup register), stays in OTAA mode and installs no
    session; and [send_packet] then queues the packet with
    [LMIC_setTxData2] on the stack as [LMIC_reset] left it, without a
    session, which is the request that makes the stack join (unless the
    stack reports a pending operation right after its reset, in which case
    nothing is queued). *)
Theorem rejoin_limit_forces_join (s : device) :
  JoinMode s = JOINMODE_OTAA ->
  REJOIN_LIMIT <= xmitcount (at_join_decision s) ->
  select (at_join_decision s) = NeedsJoin /\
  joinedFlag (EEPROM (setup s)) = false /\
  getBackupRegister BKP_R_XMITCNT (setup s) = 0 /\
  xmitcount (setup s) = 0 /\
  JoinMode (setup s) = JOINMODE_OTAA /\
  LMIC (digitalWrite HIGH (abp_session (join_policy (at_join_decision s)))) =
    LMIC_reset (LMIC s) /\
  LMIC (setup s) =
    (if Z.land (opmode (LMIC_reset (LMIC s))) OP_TXRXPEND =? 0
     then LMIC_setTxData2 1 (payload_of (effective_counter s))
            (Z.of_nat (String.length (payload_of (effective_counter s)))) 0
            (LMIC_reset (LMIC s))
     else LMIC_reset (LMIC s)).
Proof.
  intros Hj Hx.
  assert (Hsel : select (at_join_decision s) = NeedsJoin).
  { apply select_NeedsJoin. rewrite already_joined_eq.
    apply Z.ltb_ge in Hx. rewrite Hx. reflexivity. }
  destruct (needs_join_boot s Hj Hsel) as (H1 & H2 & H3 & H4 & H5).
  repeat match goal with |- _ /\ _ => split end; try assumption.
  destruct (at_join_decision_fields s) as (_ & Hde & _).
  pose proof (at_join_decision_JoinMode s) as Hj'. rewrite Hj in Hj'.
  pose proof Hsel as Ha. apply select_NeedsJoin in Ha.
  pose proof (join_branch _ Hj' Ha) as Hb. cbv zeta in Hb.
  rewrite setup_eq.
  remember (digitalWrite HIGH (abp_session (join_policy (at_join_decision s))))
    as d1 eqn:Ed1.
  destruct Hb as (_ & _ & _ & _ & _ & _ & He & _).
  rewrite send_packet_LMIC, H5, He, Hde. reflexivity.
Qed.

(** C7 (as amended).  The transmit count register is written with 0 by
    [setup] exactly on the boots whose join decision is [NeedsJoin], when the
    join is requested and before any join has succeeded; on a boot whose
    decision is [ResumingSession], which requires a count below
    [REJOIN_LIMIT], it is incremented once; [retrieve_fcnt]
    writes [REJOIN_LIMIT] to it when the backup registers are invalid and
    leaves it otherwise; no event of the stack (the join included), nor
    [send_packet], nor [loop] changes it. *)
Theorem xmitcount_register_lifecycle (s : device) :
  JoinMode s = JOINMODE_OTAA ->
  (select (at_join_decision s) = NeedsJoin ->
   getBackupRegister BKP_R_XMITCNT (setup s) = 0) /\
  (select (at_join_decision s) = ResumingSession ->
   i32 (getBackupRegister BKP_R_XMITCNT s) < REJOIN_LIMIT /\
   getBackupRegister BKP_R_XMITCNT (setup s) =
     u32 (i32 (getBackupRegister BKP_R_XMITCNT s) + 1) /\
   (0 <= getBackupRegister BKP_R_XMITCNT s < 2 ^ 31 ->
    getBackupRegister BKP_R_XMITCNT (setup s) =
      getBackupRegister BKP_R_XMITCNT s + 1)) /\
  (fast_valid s ->
   getBackupRegister BKP_R_XMITCNT (retrieve_fcnt s) =
     getBackupRegister BKP_R_XMITCNT s) /\
  (~ fast_valid s ->
   getBackupRegister BKP_R_XMITCNT (retrieve_fcnt s) = REJOIN_LIMIT) /\
  (forall ev d, getBackupRegister BKP_R_XMITCNT (onLmicEvent ev d) =
                getBackupRegister BKP_R_XMITCNT d) /\
  (forall d, getBackupRegister BKP_R_XMITCNT (send_packet d) =
             getBackupRegister BKP_R_XMITCNT d) /\
  (forall millis d, getBackupRegister BKP_R_XMITCNT (fst (loop millis d)) =
                    getBackupRegister BKP_R_XMITCNT d).
Proof.
  intros Hj.
  split; [ | split; [ | split; [ | split; [ | split; [ | split ]]]]].
  - intros Hs. apply (needs_join_boot s Hj Hs).
  - intros Hs.
    destruct (resuming_boot s Hj Hs) as (_ & _ & _ & _ & _ & _ & _ & HB & Hlt).
    split; [exact Hlt | split; [exact HB | ]].
    intros Hr. rewrite HB. rewrite i32_small in * by exact Hr.
    apply u32_small. unfold REJOIN_LIMIT in Hlt. lia.
  - intros Hf. destruct (retrieve_fcnt_fast_valid s Hf) as (_ & Hb & _).
    rewrite !getBackupRegister_eq, Hb. reflexivity.
  - intros Hf. apply (retrieve_fcnt_fast_invalid s Hf).
  - intros ev d. destruct ev; reflexivity.
  - intros d. rewrite !getBackupRegister_eq.
    destruct (send_packet_frame d) as (-> & _). reflexivity.
  - intros millis d. unfold loop.
    destruct (tx_finished d); [ | reflexivity ].
    destruct (negb _); reflexivity.
Qed.

(** *** One boot cycle and the two tiers *)

Lemma next_multiple_gt (z : Z) : z + 1 <= 100 * (z / 100 + 1).
Proof. pose proof (Z.mul_succ_div_gt z 100). lia. Qed.

Lemma below_next_multiple (c D : Z) :
  c <= 100 * (D / 100 + 1) -> c mod 100 <> 0 -> c + 1 <= 100 * (D / 100 + 1).
Proof.
  intros Hle Hm.
  destruct (Z.eq_dec c (100 * (D / 100 + 1))) as [E | E]; [ | lia ].
  exfalso. apply Hm. rewrite E, Z.mul_comm. apply Z.mod_mul. lia.
Qed.

Lemma boot_counter_eq (w : wake) (s : device) :
  boot_counter w s = effective_counter (reset w s).
Proof.
  unfold boot_counter, effective_counter.
  rewrite setup_begin_eq, retrieve_fcnt_frame.
  now destruct (frame_fields (LMIC_reset (LMIC (reset w s)))
                  (negb (led (reset w s))) (retrieve_fcnt (reset w s)))
    as (_ & -> & _).
Qed.

Lemma retrieve_fcnt_summary (s : device) :
  let r := retrieve_fcnt s in
  let c := effective_counter s in
  datavalid (eepromdata r) = DATAVALID /\
  datavalid (EEPROM r) = DATAVALID /\
  bkp r BKP_R_DATAVALID = DATAVALID /\
  bkp r BKP_R_FCNT = c /\
  (fcnt (EEPROM r) = c \/ EEPROM r = EEPROM s /\ durable_valid s) /\
  (fast_valid s \/ xmitcount r = REJOIN_LIMIT) /\
  (fast_valid s -> c = bkp s BKP_R_FCNT) /\
  (~ fast_valid s -> durable_valid s -> c = u32 (fcnt (EEPROM s) + 101)) /\
  (0 <= bkp s BKP_R_FCNT -> 0 <= c).
Proof.
  cbv zeta. unfold effective_counter. rewrite fast_valid_eqb, durable_valid_eqb.
  tiers s; simpl; try destruct (_ >? _); simpl;
    repeat match goal with |- _ /\ _ => split end;
    try reflexivity; try (now apply Z.eqb_eq); auto;
    try (intros; discriminate); try (intros; reflexivity);
    try (intros H; exfalso; now apply H).
  all: try (intros _; apply u32_range).
  all: try (intros _; apply Z.le_refl).
Qed.

Lemma radio_idle_at_send_eq (s : device) :
  radio_idle_at_send s =
  radio_idle (digitalWrite HIGH (abp_session (join_policy (at_join_decision s)))).
Proof. reflexivity. Qed.

Lemma send_packet_idle (d : device) :
  radio_idle d = true ->
  bkp (send_packet d) = bkp d /\
  eepromdata (send_packet d) = eepromdata d /\
  EEPROM (send_packet d) =
    (if fcnt (eepromdata d) mod 100 =? 0 then eepromdata d else EEPROM d).
Proof.
  intros H. unfold radio_idle in H. unfold send_packet. rewrite H.
  repeat split; simpl; destruct (fcnt (eepromdata d) mod 100 =? 0); reflexivity.
Qed.

Lemma setup_summary (s : device) :
  JoinMode s = JOINMODE_OTAA -> radio_idle_at_send s = true ->
  let c := effective_counter s in
  datavalid (eepromdata (setup s)) = DATAVALID /\
  fcnt (eepromdata (setup s)) = c /\
  datavalid (EEPROM (setup s)) = DATAVALID /\
  bkp (setup s) BKP_R_DATAVALID = DATAVALID /\
  bkp (setup s) BKP_R_FCNT = c /\
  (fcnt (EEPROM (setup s)) = c \/
   fcnt (EEPROM (setup s)) = fcnt (EEPROM s) /\
   durable_valid s /\ fast_valid s /\ c mod 100 <> 0).
Proof.
  intros Hj Hidle. cbv zeta.
  destruct (retrieve_fcnt_summary s) as (Rv & RV & Rb & Rc & RE & Rx & _).
  cbv zeta in *.
  destruct (at_join_decision_fields s) as (Hdx & Hde & HdE & Hdb & _).
  rewrite radio_idle_at_send_eq in Hidle.
  rewrite setup_eq.
  pose proof (at_join_decision_JoinMode s) as Hj'. rewrite Hj in Hj'.
  remember (at_join_decision s) as d eqn:Ed.
  destruct (already_joined d) eqn:Ha.
  - pose proof (resume_branch d Hj' Ha) as Hr. cbv zeta in Hr.
    remember (digitalWrite HIGH (abp_session (join_policy d))) as d1 eqn:Ed1.
    destruct Hr as (_ & _ & _ & _ & _ & _ & _ & Hbk & He & HE).
    destruct (send_packet_idle d1 Hidle) as (-> & -> & ->).
    rewrite He, !Hbk by (unfold BKP_R_DATAVALID, BKP_R_FCNT, BKP_R_XMITCNT,
                          RTC_BKP_DR10, RTC_BKP_DR11, RTC_BKP_DR12; lia).
    rewrite Hde, Hdb.
    assert (Hf : fast_valid s).
    { destruct Rx as [Hf | Hx]; [exact Hf | exfalso].
      rewrite already_joined_eq, Hdx, Hx in Ha. discriminate. }
    unfold effective_counter in *.
    repeat match goal with |- _ /\ _ => split end; try assumption; try reflexivity.
    + destruct (Z.eqb_spec (fcnt (eepromdata (retrieve_fcnt s)) mod 100) 0);
        [exact Rv | rewrite HE, HdE; exact RV].
    + destruct (Z.eqb_spec (fcnt (eepromdata (retrieve_fcnt s)) mod 100) 0) as [E | E];
        [left; reflexivity | ].
      rewrite HE, HdE.
      destruct RE as [RE | (RE & Hd)]; [left; exact RE | right].
      rewrite RE. repeat split; assumption.
  - pose proof (join_branch d Hj' Ha) as Hr. cbv zeta in Hr.
    remember (digitalWrite HIGH (abp_session (join_policy d))) as d1 eqn:Ed1.
    destruct Hr as (_ & _ & _ & _ & _ & Hbk & He & HE).
    destruct (send_packet_idle d1 Hidle) as (-> & -> & ->).
    rewrite He, HE, !Hbk by (unfold BKP_R_DATAVALID, BKP_R_FCNT, BKP_R_XMITCNT,
                              RTC_BKP_DR10, RTC_BKP_DR11, RTC_BKP_DR12; lia).
    rewrite Hde, Hdb.
    unfold effective_counter in *.
    repeat match goal with |- _ /\ _ => split end; try assumption; try reflexivity.
    + destruct (_ mod 100 =? 0); exact Rv.
    + left. destruct (_ mod 100 =? 0); reflexivity.
Qed.

Lemma completion_step (l : lmic_t) (millis : Z) (d : device) :
  let s' := fst (loop millis (onLmicEvent EV_TXCOMPLETE (with_LMIC l d))) in
  bkp s' BKP_R_FCNT = seqnoUp l /\
  bkp s' BKP_R_DATAVALID = bkp d BKP_R_DATAVALID /\
  (EEPROM s' = EEPROM d \/
   fcnt (EEPROM s') = seqnoUp l /\
   datavalid (EEPROM s') = datavalid (eepromdata d)).
Proof.
  unfold loop, onLmicEvent. simpl.
  destruct (joinedFlag (eepromdata d)); simpl; repeat split; auto.
Qed.

Lemma reset_tiers (w : wake) (s : device) :
  JoinMode (reset w s) = JOINMODE_OTAA /\
  EEPROM (reset w s) = EEPROM s /\
  (durable_valid (reset w s) <-> durable_valid s) /\
  match w with
  | WarmWake => bkp (reset w s) = bkp s
  | ColdWake => ~ fast_valid (reset w s) /\ bkp (reset w s) BKP_R_FCNT = 0
  end.
Proof.
  repeat split; try (intros H; exact H).
  destruct w; [reflexivity | ].
  split; [ | reflexivity ]. unfold fast_valid. simpl. discriminate.
Qed.

(** What one boot cycle leaves in the two tiers. *)
Lemma boot_cycle_tiers (b : boot) (s : device) :
  tiers_consistent s -> boot_ok b s = true ->
  tiers_consistent (boot_cycle b s) /\
  durable_valid (boot_cycle b s) /\
  fast_valid (boot_cycle b s) /\
  boot_counter (wake_kind b) s <= getBackupRegister BKP_R_FCNT (boot_cycle b s).
Proof.
  intros (HD & HF & Hcons) Hok.
  unfold boot_ok in Hok.
  apply andb_prop in Hok. destruct Hok as (Hok & Hq).
  apply andb_prop in Hok. destruct Hok as (_ & Hidle).
  rewrite boot_counter_eq in *.
  destruct (reset_tiers (wake_kind b) s) as (Hj & HE & Hdv & Hw).
  destruct (setup_summary _ Hj Hidle) as (Sv & Sc & SV & Sb & Sf & SE).
  destruct (retrieve_fcnt_summary (reset (wake_kind b) s))
    as (_ & _ & _ & _ & _ & _ & Rf & _ & Rpos).
  cbv zeta in *. rewrite ?getBackupRegister_eq in *.
  unfold boot_cycle.
  remember (effective_counter (reset (wake_kind b) s)) as c eqn:Ec.
  remember (setup (reset (wake_kind b) s)) as d2 eqn:Ed2.
  assert (Hc0 : 0 <= c).
  { apply Rpos. destruct (wake_kind b); [rewrite Hw; exact HF | ].
    destruct Hw as (_ & ->). apply Z.le_refl. }
  assert (HD2 : 0 <= fcnt (EEPROM d2) /\
                c + 1 <= 100 * (fcnt (EEPROM d2) / 100 + 1)).
  { destruct SE as [-> | (SE & Hd & Hf & Hm)].
    - split; [exact Hc0 | apply next_multiple_gt].
    - rewrite SE, HE. split; [exact HD | ].
      apply below_next_multiple; [ | exact Hm].
      destruct (wake_kind b).
      + rewrite (Rf Hf), Hw. apply Hcons; [now apply Hdv | ].
        unfold fast_valid in *. rewrite getBackupRegister_eq in *.
        rewrite Hw in Hf. exact Hf.
      + destruct Hw as (Hw & _). contradiction. }
  destruct HD2 as (HD2 & HM2).
  destruct (completion b) as [(l, millis) | ].
  - apply andb_prop in Hq. destruct Hq as (Hq1 & Hq2).
    apply Z.leb_le in Hq1, Hq2.
    destruct (completion_step l millis d2) as (Cf & Cv & CE).
    cbv zeta in Cf, Cv, CE.
    remember (fst (loop millis (onLmicEvent EV_TXCOMPLETE (with_LMIC l d2))))
      as s' eqn:Es'.
    unfold tiers_consistent, durable_valid, fast_valid.
    rewrite ?getBackupRegister_eq. rewrite Cf, Cv, Sb.
    destruct CE as [-> | (CE1 & CE2)].
    + repeat split; try assumption; lia.
    + rewrite CE1, CE2. pose proof (next_multiple_gt (seqnoUp l)).
      repeat split; try assumption; lia.
  - unfold tiers_consistent, durable_valid, fast_valid.
    rewrite ?getBackupRegister_eq. rewrite Sf.
    repeat split; try assumption; lia.
Qed.

(** The counter of a boot over valid, consistent tiers is not below the
    counter held in the backup register. *)
Lemma boot_counter_lower_bound (b : boot) (s : device) :
  tiers_consistent s -> durable_valid s -> fast_valid s ->
  boot_ok b s = true ->
  getBackupRegister BKP_R_FCNT s <= boot_counter (wake_kind b) s.
Proof.
  intros (HD & HF & Hcons) Hd Hf Hok.
  specialize (Hcons Hd Hf).
  unfold boot_ok in Hok.
  apply andb_prop in Hok. destruct Hok as (Hok & _).
  apply andb_prop in Hok. destruct Hok as (Hwrap & _).
  rewrite boot_counter_eq.
  destruct (reset_tiers (wake_kind b) s) as (_ & HE & Hdv & Hw).
  destruct (retrieve_fcnt_summary (reset (wake_kind b) s))
    as (_ & _ & _ & _ & _ & _ & Rf & Rcold & _).
  cbv zeta in *. rewrite ?getBackupRegister_eq in *.
  destruct (wake_kind b).
  - rewrite Rf.
    + rewrite Hw. apply Z.le_refl.
    + unfold fast_valid in *. rewrite getBackupRegister_eq in *.
      rewrite Hw. exact Hf.
  - destruct Hw as (Hw & _).
    rewrite (Rcold Hw (proj2 Hdv Hd)), HE.
    apply durable_valid_eqb in Hd. rewrite Hd in Hwrap. simpl in Hwrap.
    apply Z.ltb_lt in Hwrap.
    rewrite u32_small by lia.
    pose proof (Z.mul_div_le (fcnt (EEPROM s)) 100). lia.
Qed.

Lemma effective_counters_from_valid_tiers (h : list boot) :
  forall s : device,
  tiers_consistent s -> durable_valid s -> fast_valid s ->
  history_ok h s = true ->
  Forall (Z.le (getBackupRegister BKP_R_FCNT s)) (effective_counters h s) /\
  StronglySorted Z.le (effective_counters h s).
Proof.
  induction h as [ | b h IH]; intros s Hc Hd Hf Hok; cbn [effective_counters].
  - split; constructor.
  - cbn [history_ok] in Hok. apply andb_prop in Hok. destruct Hok as (Hb & Hh).
    pose proof (boot_counter_lower_bound b s Hc Hd Hf Hb) as Hlow.
    destruct (boot_cycle_tiers b s Hc Hb) as (Hc' & Hd' & Hf' & Hup).
    destruct (IH _ Hc' Hd' Hf' Hh) as (Hall & Hsorted).
    assert (Hrest : Forall (Z.le (boot_counter (wake_kind b) s))
                      (effective_counters h (boot_cycle b s))).
    { eapply Forall_impl; [ | exact Hall].
      intros a Ha. cbv beta in Ha. lia. }
    split.
    + constructor; [exact Hlow | ].
      eapply Forall_impl; [ | exact Hrest]. intros a Ha. cbv beta in Ha. lia.
    + constructor; assumption.
Qed.

Lemma boot_cycle_completed (b : boot) (s : device) (l : lmic_t) (millis : Z) :
  completion b = Some (l, millis) ->
  getBackupRegister BKP_R_FCNT (boot_cycle b s) = seqnoUp l.
Proof.
  intros H. unfold boot_cycle. rewrite H.
  remember (setup (reset (wake_kind b) s)) as d2 eqn:Ed2.
  rewrite getBackupRegister_eq. apply completion_step.
Qed.

Lemma effective_counters_strict_from_valid_tiers (h : list boot) :
  forall s : device,
  tiers_consistent s -> durable_valid s -> fast_valid s ->
  history_ok h s = true -> history_advances h s = true ->
  StronglySorted Z.lt (effective_counters h s).
Proof.
  induction h as [ | b h IH]; intros s Hc Hd Hf Hok Hadv; cbn [effective_counters].
  - constructor.
  - cbn [history_ok] in Hok. apply andb_prop in Hok. destruct Hok as (Hb & Hh).
    cbn [history_advances] in Hadv. apply andb_prop in Hadv.
    destruct Hadv as (Hq & Hadv).
    destruct (boot_cycle_tiers b s Hc Hb) as (Hc' & Hd' & Hf' & _).
    destruct (effective_counters_from_valid_tiers h _ Hc' Hd' Hf' Hh) as (Hall & _).
    constructor; [now apply IH | ].
    destruct (completion b) as [(l, millis) | ] eqn:Eb; [ | discriminate].
    rewrite (boot_cycle_completed b s l millis Eb) in Hall.
    apply Z.eqb_eq in Hq.
    eapply Forall_impl; [ | exact Hall]. intros a Ha. cbv beta in Ha. lia.
Qed.

(** C1 (as amended).  Take any history of boots separated by deep sleeps,
    warm resets or cold power losses that starts from consistent tiers (a
    fresh device, or a backup counter not beyond the next multiple of 100
    above the EEPROM counter) and in which the stack is idle when the packet
    is queued, the counter reported with [EV_TXCOMPLETE] is the counter of
    the boot or one more, and the EEPROM counter plus 101 does not wrap.
    Then the counter left by [retrieve_fcnt] on a boot is never less than
    the counter left on any earlier boot; and it is greater than the counter
    of every earlier boot when each boot completes its uplink and the stack
    reports the counter of the boot plus one. *)
Theorem effective_counters_never_decrease (h : list boot) (s : device) :
  tiers_consistent s -> history_ok h s = true ->
  StronglySorted Z.le (effective_counters h s) /\
  (history_advances h s = true -> StronglySorted Z.lt (effective_counters h s)).
Proof.
  intros Hc Hok. destruct h as [ | b h]; cbn [effective_counters].
  - split; constructor.
  - cbn [history_ok] in Hok. apply andb_prop in Hok. destruct Hok as (Hb & Hh).
    destruct (boot_cycle_tiers b s Hc Hb) as (Hc' & Hd' & Hf' & Hup).
    destruct (effective_counters_from_valid_tiers h _ Hc' Hd' Hf' Hh)
      as (Hall & Hsorted).
    split.
    + constructor; [exact Hsorted | ].
      eapply Forall_impl; [ | exact Hall]. intros a Ha. cbv beta in Ha. lia.
    + intros Hadv. cbn [history_advances] in Hadv. apply andb_prop in Hadv.
      destruct Hadv as (Hq & Hadv).
      constructor;
        [now apply effective_counters_strict_from_valid_tiers | ].
      destruct (completion b) as [(l, millis) | ] eqn:Eb; [ | discriminate].
      rewrite (boot_cycle_completed b s l millis Eb) in Hall.
      apply Z.eqb_eq in Hq.
      eapply Forall_impl; [ | exact Hall]. intros a Ha. cbv beta in Ha. lia.
Qed.

End Properties.

(** C2, counterexample: in scenario C both tiers are valid and 205 does not
    exceed 200 + 101 plus the margin, yet the effective counter is 205 and
    not 301. *)
Lemma retrieve_fcnt_adopts_fast_below_margin :
  durable_valid scenario_C /\ fast_valid scenario_C /\
  fcnt (EEPROM scenario_C) = 200 /\
  getBackupRegister BKP_R_FCNT scenario_C = 205 /\
  ~ (205 > (200 + 101) + 101) /\
  effective_counter scenario_C = 205 /\
  effective_counter scenario_C <> 200 + 101.
Proof. repeat split; try reflexivity; vm_compute; discriminate. Qed.

Lemma retrieve_fcnt_both_valid_witness :
  effective_counter scenario_C = 205 /\
  EEPROM (retrieve_fcnt scenario_C) = EEPROM scenario_C.
Proof.
  assert (Hd : durable_valid scenario_C) by reflexivity.
  assert (Hf : fast_valid scenario_C) by reflexivity.
  destruct (retrieve_fcnt_both_valid scenario_C Hd Hf) as (H1 & _ & H3 & _).
  split; [exact H1 | exact H3].
Defined.

(** C8, counterexample: with an erased EEPROM and valid backup registers
    holding 205, the effective counter is 205 and not 0. *)
Lemma retrieve_fcnt_erased_eeprom_keeps_fast_counter :
  ~ durable_valid erased_eeprom_warm /\
  effective_counter erased_eeprom_warm = 205 /\
  effective_counter erased_eeprom_warm <> 0.
Proof. repeat split; try reflexivity; vm_compute; discriminate. Qed.

Lemma retrieve_fcnt_durable_invalid_witness :
  effective_counter (reset ColdWake erased_eeprom_warm) = 0 /\
  select (@at_join_decision sample_stack erased_eeprom_warm) = NeedsJoin.
Proof.
  assert (Hd : ~ durable_valid erased_eeprom_warm) by (vm_compute; discriminate).
  assert (Hd' : ~ durable_valid (reset ColdWake erased_eeprom_warm))
    by (vm_compute; discriminate).
  assert (Hf : ~ fast_valid (reset ColdWake erased_eeprom_warm))
    by (vm_compute; discriminate).
  split.
  - exact (proj1 (@retrieve_fcnt_durable_invalid sample_stack _ Hd') Hf).
  - apply (@retrieve_fcnt_durable_invalid sample_stack _ Hd).
Defined.

Lemma send_packet_pending_is_skipped_witness :
  @send_packet sample_stack pending_device = pending_device.
Proof.
  apply (@send_packet_pending_is_skipped sample_stack pending_device).
  vm_compute. discriminate.
Defined.

(** C6, counterexample: with an interval of 60 seconds and [millis ()] 550 ms
    before its wrap, the nominal time is 60500 ms; its 60 seconds do not
    exceed the interval, so it is not clamped and the sleep lasts more than
    60 seconds. *)
Lemma sleep_exceeds_interval_before_millis_wrap :
  sleep_times 60 4294966746 = (60500, 60) /\
  60 * 1000 < fst (sleep_times 60 4294966746).
Proof. split; reflexivity. Qed.

(** Scenario D of the specification. *)
Lemma sleep_times_bounded_witness :
  sleep_times 60 70000 = (60000, 60) /\
  snd (sleep_times 60 70000) <= 60 /\
  fst (sleep_times 60 70000) < (60 + 1) * 1000.
Proof.
  split; [reflexivity | ].
  destruct (sleep_times_bounded 60 70000) as (H1 & H2 & _); [lia | ].
  split; [exact H1 | exact H2].
Defined.

Lemma scenario_C_resumes_session_witness :
  select (@at_join_decision sample_stack scenario_C) = ResumingSession /\
  NwkSKey (digitalWrite HIGH
             (@abp_session sample_stack
                (join_policy (@at_join_decision sample_stack scenario_C)))) =
    sample_key1 /\
  xmitcount (@setup sample_stack scenario_C) = 11.
Proof.
  pose proof (@scenario_C_resumes_session sample_stack scenario_C) as H.
  cbv zeta in H.
  destruct H as (_ & H2 & _ & _ & H5 & _ & _ & H8 & _); try reflexivity.
  split; [exact H2 | split; [exact H5 | exact H8]].
Defined.

Lemma cold_boot_forces_join_witness :
  select (@at_join_decision sample_stack scenario_B) = NeedsJoin /\
  effective_counter scenario_B = 301.
Proof.
  assert (Hf : ~ fast_valid scenario_B) by (vm_compute; discriminate).
  destruct (@cold_boot_forces_join sample_stack scenario_B eq_refl Hf)
    as (_ & _ & H3 & _ & _ & _ & _ & H8).
  split; [exact H3 | apply H8; reflexivity].
Defined.

Lemma rejoin_limit_forces_join_witness :
  joinedFlag (EEPROM rejoin_due) = true /\
  select (@at_join_decision sample_stack rejoin_due) = NeedsJoin /\
  getBackupRegister BKP_R_XMITCNT (@setup sample_stack rejoin_due) = 0 /\
  LMIC (@setup sample_stack rejoin_due) =
    mk_lmic 0x0008 0 0 (repeat 0 16) (repeat 0 16).
Proof.
  assert (Hx : REJOIN_LIMIT <= xmitcount (@at_join_decision sample_stack rejoin_due))
    by (vm_compute; discriminate).
  destruct (@rejoin_limit_forces_join sample_stack rejoin_due eq_refl Hx)
    as (H1 & _ & H3 & _ & _ & _ & H7).
  split; [reflexivity | split; [exact H1 | split; [exact H3 | ]]].
  rewrite H7. reflexivity.
Defined.

(** C7, counterexample: on the cold boot of scenario B the register holds
    [REJOIN_LIMIT] after [retrieve_fcnt] and 0 when [setup] returns, while
    the device is not joined and no event has been delivered; and the join
    event leaves the register of a resumed boot at 11. *)
Lemma xmitcount_reset_precedes_join :
  getBackupRegister BKP_R_XMITCNT (retrieve_fcnt scenario_B) = 300 /\
  getBackupRegister BKP_R_XMITCNT (@setup sample_stack scenario_B) = 0 /\
  joinedFlag (EEPROM (@setup sample_stack scenario_B)) = false /\
  tx_finished (@setup sample_stack scenario_B) = false /\
  getBackupRegister BKP_R_XMITCNT (@setup sample_stack scenario_C) = 11 /\
  getBackupRegister BKP_R_XMITCNT
    (@onLmicEvent sample_stack EV_JOINED (@setup sample_stack scenario_C)) = 11.
Proof. repeat split; vm_compute; reflexivity. Qed.

Lemma xmitcount_register_lifecycle_witness :
  getBackupRegister BKP_R_XMITCNT (@setup sample_stack scenario_B) = 0 /\
  getBackupRegister BKP_R_XMITCNT (@setup sample_stack scenario_C) = 10 + 1.
Proof.
  destruct (@xmitcount_register_lifecycle sample_stack scenario_B eq_refl)
    as (HB & _).
  destruct (@xmitcount_register_lifecycle sample_stack scenario_C eq_refl)
    as (_ & HC & _).
  split.
  - apply HB. reflexivity.
  - apply HC; [reflexivity | vm_compute; split; [discriminate | reflexivity]].
Defined.


(** C1, counterexample: in scenario C a cold power loss is followed by a boot
    whose counter is 301; the boot joins, the stack reports its restarted
    counter 1 with the first completed uplink, and the counter of the next
    boot, after a deep sleep, is 1. *)
Lemma effective_counter_restarts_after_join :
  @effective_counters sample_stack rejoin_history scenario_C = [301; 1] /\
  ~ StronglySorted Z.le (@effective_counters sample_stack rejoin_history scenario_C).
Proof.
  split; [reflexivity | ].
  intros H. inversion H as [ | a l _ Hall]; subst.
  inversion Hall as [ | x l' Hle _]; subst.
  vm_compute in Hle. now apply Hle.
Qed.

Lemma effective_counters_never_decrease_witness :
  @effective_counters sample_stack sample_history fresh_device = [0; 1; 102; 102] /\
  StronglySorted Z.le (@effective_counters sample_stack sample_history fresh_device) /\
  @effective_counters sample_stack advancing_history fresh_device = [0; 1; 2] /\
  StronglySorted Z.lt (@effective_counters sample_stack advancing_history fresh_device).
Proof.
  assert (Hc : tiers_consistent fresh_device).
  { unfold tiers_consistent. repeat split; vm_compute; discriminate. }
  split; [reflexivity | split; [ | split; [reflexivity | ]]].
  - apply (@effective_counters_never_decrease sample_stack sample_history
             fresh_device Hc).
    reflexivity.
  - apply (@effective_counters_never_decrease sample_stack advancing_history
             fresh_device Hc); reflexivity.
Defined.

(** * Further properties *)

(** ** Byte arrays *)

Lemma store_length (i : nat) (v : Z) (buf : list Z) :
  (i < List.length buf)%nat -> List.length (store i v buf) = List.length buf.
Proof.
  intros H. unfold store.
  rewrite length_app, length_firstn. cbn [List.length].
  rewrite length_skipn. lia.
Qed.

Lemma store_prefix (k : nat) (v : Z) (a c : list Z) :
  List.length a = k -> (k < List.length c)%nat ->
  store k v (a ++ skipn k c) = (a ++ [v]) ++ skipn (S k) c.
Proof.
  intros Ha Hc. unfold store.
  rewrite firstn_app, firstn_all2 by lia.
  replace (k - List.length a)%nat with 0%nat by lia. cbn [firstn].
  rewrite app_nil_r, <- app_assoc. cbn [app]. do 2 f_equal.
  rewrite skipn_app, skipn_all2 by lia.
  replace (S k - List.length a)%nat with 1%nat by lia. cbn [app].
  rewrite skipn_skipn. reflexivity.
Qed.

Lemma store_same (c : list Z) :
  forall k : nat, (k < List.length c)%nat -> store k (nth k c 0) c = c.
Proof.
  unfold store. induction c as [ | x c IH]; intros k H; cbn [List.length] in H.
  - lia.
  - destruct k as [ | k]; [reflexivity | ].
    cbn [firstn nth skipn app]. f_equal. apply IH. lia.
Qed.

Lemma firstn_snoc (k : nat) (a : list Z) :
  (k < List.length a)%nat -> firstn (S k) a = firstn k a ++ [nth k a 0].
Proof.
  revert k. induction a as [ | x a IH]; intros k H; cbn [List.length] in H.
  - lia.
  - destruct k as [ | k]; [reflexivity | ].
    cbn [firstn nth app]. rewrite <- IH by lia. reflexivity.
Qed.

Lemma nth_prefix (a : list Z) :
  forall (k : nat) (c : list Z),
  List.length a = k -> nth k (a ++ skipn k c) 0 = nth k c 0.
Proof.
  induction a as [ | x a IH]; intros k c H; cbn [List.length] in H; subst k.
  - reflexivity.
  - destruct c as [ | y c]; cbn [app nth skipn].
    + rewrite app_nil_r. apply nth_overflow. lia.
    + apply IH. reflexivity.
Qed.

(** X1.  [os_getJoinEui] and [os_getDevEui] fill the first eight bytes of the
    buffer with the EUI in reverse order and leave the rest of the buffer as
    it was; reversing those eight bytes gives the EUI back. *)
Theorem copy_eui_reverses (eui buf : list Z) :
  List.length eui = 8%nat -> (8 <= List.length buf)%nat ->
  copy_eui eui buf = rev eui ++ skipn 8 buf /\
  rev (firstn 8 (copy_eui eui buf)) = eui /\
  List.length (copy_eui eui buf) = List.length buf /\
  os_getJoinEui buf = rev JoinEui ++ skipn 8 buf /\
  os_getDevEui buf = rev DevEui ++ skipn 8 buf.
Proof.
  intros He Hb.
  assert (G : forall e : list Z, List.length e = 8%nat ->
              copy_eui e buf = rev e ++ skipn 8 buf).
  { clear eui He. intros e He.
    do 9 (destruct e as [ | ? e]; try discriminate).
    do 8 (destruct buf as [ | ? buf]; [cbn in Hb; lia | ]).
    reflexivity. }
  rewrite (G eui He).
  split; [reflexivity | split; [ | split; [ | split ]]].
  - rewrite firstn_app, firstn_all2 by (rewrite length_rev; lia).
    rewrite length_rev, He. cbn [Nat.sub firstn]. rewrite app_nil_r.
    apply rev_involutive.
  - rewrite length_app, length_rev, length_skipn. lia.
  - apply G. reflexivity.
  - apply G. reflexivity.
Qed.

Lemma copy_eui_reverses_witness :
  os_getJoinEui (repeat 0 10) =
    [0x11; 0xA2; 0x13; 0x66; 0x78; 0x18; 0x15; 0x12; 0; 0].
Proof.
  destruct (copy_eui_reverses JoinEui (repeat 0 10)) as (_ & _ & _ & H & _);
    [reflexivity | cbn; lia | ].
  exact H.
Defined.

(** ** The EEPROM byte by byte *)

Lemma update_content (k : nat) (v : Z) (st : list Z * nat) :
  (k < List.length (fst st))%nat ->
  fst (ByteImage.EEPROM_update k v st) = store k v (fst st).
Proof.
  intros H. unfold ByteImage.EEPROM_update, ByteImage.EEPROM_read.
  destruct (Z.eqb_spec (nth k (fst st) 0) v) as [E | E]; [ | reflexivity].
  rewrite <- E. symmetry. now apply store_same.
Qed.

Lemma skipn_cons_nth (c : list Z) :
  forall k : nat, (k < List.length c)%nat ->
  skipn k c = nth k c 0 :: skipn (S k) c.
Proof.
  induction c as [ | x c IH]; intros k H; cbn [List.length] in H.
  - lia.
  - destruct k as [ | k]; [reflexivity | ]. cbn [skipn nth]. apply IH. lia.
Qed.

Lemma save_prefix (image cells : list Z) (w : nat) :
  forall k : nat, (k <= List.length image)%nat -> (k <= List.length cells)%nat ->
  fst (ByteImage.saveEEPROMdata k image (cells, w)) =
  firstn k image ++ skipn k cells.
Proof.
  unfold ByteImage.saveEEPROMdata.
  induction k as [ | k IH]; intros Hi Hc; [reflexivity | ].
  rewrite seq_S, fold_left_app. cbn [fold_left Nat.add].
  specialize (IH ltac:(lia) ltac:(lia)).
  rewrite update_content; rewrite IH.
  - rewrite store_prefix; [ | rewrite length_firstn; lia | lia].
    rewrite <- firstn_snoc by lia. reflexivity.
  - rewrite length_app, length_firstn, length_skipn. lia.
Qed.

Lemma read_prefix (cells image : list Z) :
  forall k : nat, (k <= List.length image)%nat -> (k <= List.length cells)%nat ->
  ByteImage.readEEPROMdata k cells image = firstn k cells ++ skipn k image.
Proof.
  unfold ByteImage.readEEPROMdata, ByteImage.EEPROM_read.
  induction k as [ | k IH]; intros Hi Hc; [reflexivity | ].
  rewrite seq_S, fold_left_app. cbn [fold_left Nat.add].
  rewrite IH by lia.
  rewrite store_prefix; [ | rewrite length_firstn; lia | lia].
  rewrite <- firstn_snoc by lia. reflexivity.
Qed.

Lemma fold_left_fixed {A B : Type} (f : A -> B -> A) (l : list B) (a : A) :
  (forall b, In b l -> f a b = a) -> fold_left f l a = a.
Proof.
  induction l as [ | b l IH]; intros H; [reflexivity | ].
  cbn [fold_left]. rewrite (H b) by (left; reflexivity).
  apply IH. intros b' Hb'. apply H. right. exact Hb'.
Qed.

(** X2.  Saving the image of the struct and reading it back restores every
    byte of the image, whatever the memory held before the read; the save
    changes only the first [size] cells of the EEPROM. *)
Theorem save_then_read_restores_image (size : nat) (image image0 cells : list Z)
  (w : nat) :
  List.length image = size -> List.length image0 = size ->
  (size <= List.length cells)%nat ->
  let cells' := fst (ByteImage.saveEEPROMdata size image (cells, w)) in
  ByteImage.readEEPROMdata size cells' image0 = image /\
  cells' = image ++ skipn size cells /\
  List.length cells' = List.length cells.
Proof.
  intros Hi H0 Hc. cbv zeta.
  rewrite save_prefix by lia. rewrite firstn_all2 by lia.
  assert (L : List.length (image ++ skipn size cells) = List.length cells)
    by (rewrite length_app, length_skipn; lia).
  split; [ | split; [reflexivity | exact L]].
  rewrite read_prefix; [ | lia | rewrite L; lia].
  rewrite firstn_app, firstn_all2 by lia.
  replace (size - List.length image)%nat with 0%nat by lia.
  cbn [firstn]. rewrite skipn_all2 by lia. now rewrite !app_nil_r.
Qed.

Lemma save_then_read_restores_image_witness :
  ByteImage.readEEPROMdata 3
    (fst (ByteImage.saveEEPROMdata 3 [1; 2; 3] ([9; 9; 9; 9; 9], 0%nat)))
    [0; 0; 0] = [1; 2; 3].
Proof.
  apply (save_then_read_restores_image 3 [1; 2; 3] [0; 0; 0] [9; 9; 9; 9; 9] 0);
    [reflexivity | reflexivity | cbn; lia].
Defined.

(** X3.  Saving an image that was just read from the EEPROM writes no cell:
    the cells and the count of written cells are unchanged. *)
Theorem read_then_save_writes_nothing (size : nat) (image0 cells : list Z)
  (w : nat) :
  List.length image0 = size -> (size <= List.length cells)%nat ->
  ByteImage.saveEEPROMdata size
    (ByteImage.readEEPROMdata size cells image0) (cells, w) = (cells, w).
Proof.
  intros H0 Hc. rewrite read_prefix by lia.
  rewrite skipn_all2 by lia. rewrite app_nil_r.
  unfold ByteImage.saveEEPROMdata. apply fold_left_fixed.
  intros i Hin. apply in_seq in Hin.
  unfold ByteImage.EEPROM_update, ByteImage.EEPROM_read. cbn [fst].
  rewrite nth_firstn.
  destruct (Nat.ltb_spec i size) as [Hlt | Hge]; [ | lia].
  now rewrite Z.eqb_refl.
Qed.

Lemma read_then_save_writes_nothing_witness :
  ByteImage.saveEEPROMdata 3
    (ByteImage.readEEPROMdata 3 [7; 8; 9; 10] [0; 0; 0]) ([7; 8; 9; 10], 5%nat) =
  ([7; 8; 9; 10], 5%nat).
Proof.
  apply (read_then_save_writes_nothing 3 [0; 0; 0] [7; 8; 9; 10] 5);
    [reflexivity | cbn; lia].
Defined.

(** X14.  [saveEEPROMdata] wears only the cells that change: the number of
    cells it writes is the number of bytes of the image that differ from the
    EEPROM. *)
Theorem save_writes_differing_cells (size : nat) (image cells : list Z) (w : nat) :
  List.length image = size -> (size <= List.length cells)%nat ->
  snd (ByteImage.saveEEPROMdata size image (cells, w)) =
  (w + ByteImage.cells_differing size image cells)%nat.
Proof.
  intros Hi Hc.
  assert (G : forall k : nat, (k <= size)%nat ->
              snd (ByteImage.saveEEPROMdata k image (cells, w)) =
              (w + ByteImage.cells_differing k image cells)%nat).
  { induction k as [ | k IH]; intros Hk.
    - cbn. lia.
    - specialize (IH ltac:(lia)).
      pose proof (save_prefix image cells w k ltac:(lia) ltac:(lia)) as Hp.
      unfold ByteImage.cells_differing in *.
      unfold ByteImage.saveEEPROMdata in *.
      rewrite seq_S, fold_left_app, filter_app, length_app.
      cbn [fold_left Nat.add filter].
      unfold ByteImage.EEPROM_update at 1. unfold ByteImage.EEPROM_read.
      rewrite Hp, nth_prefix by (rewrite length_firstn; lia).
      destruct (nth k cells 0 =? nth k image 0); cbn [negb List.length snd];
        rewrite IH; lia. }
  apply G. lia.
Qed.

Lemma save_writes_differing_cells_witness :
  snd (ByteImage.saveEEPROMdata 3 [1; 8; 3] ([7; 8; 9; 10], 0%nat)) = 2%nat.
Proof.
  rewrite (save_writes_differing_cells 3 [1; 8; 3] [7; 8; 9; 10] 0);
    [reflexivity | reflexivity | cbn; lia].
Defined.

(** ** The payload *)

Lemma to_int_printable (z : Z) :
  Z.to_int z <> Decimal.Pos Decimal.Nil /\ Z.to_int z <> Decimal.Neg Decimal.Nil.
Proof.
  destruct z as [ | p | p]; cbn; split; intros H; try discriminate;
    injection H as H; now apply DecimalPos.Unsigned.to_uint_nonnil in H.
Qed.

Lemma i32_inj (a b : Z) :
  0 <= a < 2 ^ 32 -> 0 <= b < 2 ^ 32 -> i32 a = i32 b -> a = b.
Proof.
  unfold i32. intros Ha Hb H.
  assert (E : (a + 2 ^ 31) mod 2 ^ 32 = (b + 2 ^ 31) mod 2 ^ 32) by lia.
  destruct (Z_lt_le_dec a (2 ^ 31)) as [La | La];
    destruct (Z_lt_le_dec b (2 ^ 31)) as [Lb | Lb].
  - rewrite !Z.mod_small in E by lia. lia.
  - rewrite (Z.mod_small (a + 2 ^ 31)) in E by lia.
    replace (b + 2 ^ 31) with (b - 2 ^ 31 + 1 * 2 ^ 32) in E by lia.
    rewrite Z.mod_add, Z.mod_small in E by lia. lia.
  - rewrite (Z.mod_small (b + 2 ^ 31)) in E by lia.
    replace (a + 2 ^ 31) with (a - 2 ^ 31 + 1 * 2 ^ 32) in E by lia.
    rewrite Z.mod_add, Z.mod_small in E by lia. lia.
  - replace (a + 2 ^ 31) with (a - 2 ^ 31 + 1 * 2 ^ 32) in E by lia.
    replace (b + 2 ^ 31) with (b - 2 ^ 31 + 1 * 2 ^ 32) in E by lia.
    rewrite !Z.mod_add, !Z.mod_small in E by lia. lia.
Qed.

(** X4.  The text that [send_packet] queues identifies the counter: two
    32-bit counters with the same payload are equal. *)
Theorem payload_identifies_counter (a b : Z) :
  0 <= a < 2 ^ 32 -> 0 <= b < 2 ^ 32 ->
  payload_of a = payload_of b -> a = b.
Proof.
  intros Ha Hb H. unfold payload_of in H. cbn [append] in H.
  injection H as H.
  apply (f_equal NilZero.int_of_string) in H.
  destruct (to_int_printable (i32 a)) as (A1 & A2).
  destruct (to_int_printable (i32 b)) as (B1 & B2).
  rewrite !NilZero.isi in H by assumption.
  injection H as H. apply DecimalZ.to_int_inj in H.
  now apply i32_inj.
Qed.

Lemma payload_identifies_counter_witness :
  payload_of 205 = "Test 205"%string /\
  (payload_of 4294967295 = payload_of 4294967295 -> 4294967295 = 4294967295).
Proof.
  split; [reflexivity | ].
  apply (payload_identifies_counter 4294967295 4294967295); lia.
Defined.

Lemma double_digits (d : Decimal.uint) :
  (Decimal.nb_digits (Decimal.Little.double d) <= S (Decimal.nb_digits d))%nat /\
  (Decimal.nb_digits (Decimal.Little.succ_double d) <= S (Decimal.nb_digits d))%nat.
Proof.
  induction d as [ | d IH | d IH | d IH | d IH | d IH | d IH | d IH | d IH
                   | d IH | d IH]; cbn; split; lia.
Qed.

Lemma little_uint_digits (p : positive) :
  (Decimal.nb_digits (Pos.to_little_uint p) <= Pos.size_nat p)%nat.
Proof.
  induction p as [p IH | p IH | ]; cbn [Pos.to_little_uint Pos.size_nat].
  - pose proof (proj2 (double_digits (Pos.to_little_uint p))). lia.
  - pose proof (proj1 (double_digits (Pos.to_little_uint p))). lia.
  - cbn. lia.
Qed.

Lemma size_nat_lower (p : positive) :
  2 ^ (Z.of_nat (Pos.size_nat p) - 1) <= Z.pos p.
Proof.
  induction p as [p IH | p IH | ]; cbn [Pos.size_nat].
  - replace (Z.of_nat (S (Pos.size_nat p)) - 1)
      with (Z.succ (Z.of_nat (Pos.size_nat p) - 1)) by lia.
    rewrite Z.pow_succ_r by (destruct p; cbn [Pos.size_nat]; lia). lia.
  - replace (Z.of_nat (S (Pos.size_nat p)) - 1)
      with (Z.succ (Z.of_nat (Pos.size_nat p) - 1)) by lia.
    rewrite Z.pow_succ_r by (destruct p; cbn [Pos.size_nat]; lia). lia.
  - cbn. lia.
Qed.

Lemma string_of_uint_length (d : Decimal.uint) :
  String.length (NilEmpty.string_of_uint d) = Decimal.nb_digits d.
Proof. induction d; cbn; congruence. Qed.

Lemma decimal_length (z : Z) :
  - 2 ^ 31 <= z < 2 ^ 31 ->
  (String.length (NilZero.string_of_int (Z.to_int z)) <= 33)%nat.
Proof.
  intros Hz.
  assert (G : forall p : positive, Z.pos p <= 2 ^ 31 ->
              (String.length (NilZero.string_of_uint (Pos.to_uint p)) <= 32)%nat).
  { intros p Hp. unfold NilZero.string_of_uint.
    assert (L : (Decimal.nb_digits (Pos.to_uint p) <= 32)%nat).
    { unfold Pos.to_uint. rewrite DecimalFacts.nb_digits_rev.
      pose proof (little_uint_digits p). pose proof (size_nat_lower p).
      assert (Z.of_nat (Pos.size_nat p) - 1 <= 31); [ | lia].
      apply (Z.pow_le_mono_r_iff 2); lia. }
    destruct (Pos.to_uint p) eqn:E; [cbn; lia | ..];
      rewrite string_of_uint_length; exact L. }
  destruct z as [ | p | p]; cbn [Z.to_int NilZero.string_of_int].
  - cbn. lia.
  - specialize (G p ltac:(lia)). lia.
  - specialize (G p ltac:(lia)). cbn [String.length]. lia.
Qed.

Lemma i32_range (x : Z) : - 2 ^ 31 <= i32 x < 2 ^ 31.
Proof.
  unfold i32. pose proof (Z.mod_pos_bound (x + 2 ^ 31) (2 ^ 32)). lia.
Qed.

Lemma append_length (a b : string) :
  String.length (a ++ b) = (String.length a + String.length b)%nat.
Proof. induction a as [ | c a IH]; cbn; [reflexivity | now rewrite IH]. Qed.

(** X17.  The text that [send_packet] formats always fits its buffer of 64
    bytes, terminator included, whatever the counter. *)
Theorem payload_fits_buffer (n : Z) :
  (String.length (payload_of n) + 1 <= 64)%nat.
Proof.
  unfold payload_of. rewrite append_length.
  pose proof (decimal_length (i32 n) (i32_range n)). cbn [String.length]. lia.
Qed.

Lemma sprintf_at_fits (off : nat) (text : string) (buf : list Ascii.ascii) :
  (off + String.length text + 1 <= List.length buf)%nat ->
  exists buf', sprintf_at off text buf = Some buf' /\
               List.length buf' = List.length buf.
Proof.
  intros H. unfold sprintf_at.
  destruct (Nat.leb_spec (off + String.length text + 1) (List.length buf));
    [ | lia].
  eexists. split; [reflexivity | ].
  rewrite !length_app, length_firstn. cbn [List.length].
  rewrite length_skipn.
  assert (L : List.length (list_ascii_of_string text) = String.length text).
  { clear. induction text as [ | c text IH]; cbn; congruence. }
  rewrite L. lia.
Qed.

(** X18.  [showOTAAkeys] stays inside its two buffers: for keys made of
    bytes and buffers of 50 bytes, or of any size from 49, each of the
    sixteen [sprintf] calls per buffer fits, terminator included. *)
Theorem showOTAAkeys_fits_buffers (s : device) (buf1 buf2 : list Ascii.ascii) :
  Forall (fun v => 0 <= v < 256) (nwkSKey (eepromdata s)) ->
  Forall (fun v => 0 <= v < 256) (appSKey (eepromdata s)) ->
  (49 <= List.length buf1)%nat -> (49 <= List.length buf2)%nat ->
  exists b1 b2,
    showOTAAkeys s buf1 buf2 = Some (b1, b2) /\
    List.length b1 = List.length buf1 /\ List.length b2 = List.length buf2.
Proof.
  intros _ _ H1 H2. unfold showOTAAkeys.
  set (step := fun (st : option (list Ascii.ascii * list Ascii.ascii)) (j : nat) => _).
  assert (G : forall k : nat, (k <= 16)%nat ->
              exists b1 b2,
                fold_left step (seq 0 k) (Some (buf1, buf2)) = Some (b1, b2) /\
                List.length b1 = List.length buf1 /\
                List.length b2 = List.length buf2).
  { induction k as [ | k IH]; intros Hk.
    - exists buf1, buf2. repeat split; reflexivity.
    - destruct (IH ltac:(lia)) as (b1 & b2 & E & L1 & L2).
      rewrite seq_S, fold_left_app, E. cbn [fold_left Nat.add]. unfold step.
      destruct (sprintf_at_fits (k * 3)
                  (format_02X (nth k (nwkSKey (eepromdata s)) 0)) b1)
        as (b1' & E1 & L1'); [cbn [String.length format_02X]; lia | ].
      destruct (sprintf_at_fits (k * 3)
                  (format_02X (nth k (appSKey (eepromdata s)) 0)) b2)
        as (b2' & E2 & L2'); [cbn [String.length format_02X]; lia | ].
      rewrite E1, E2. exists b1', b2'. repeat split; congruence. }
  apply G. lia.
Qed.

Lemma showOTAAkeys_fits_buffers_witness :
  exists b1 b2,
    showOTAAkeys scenario_C (repeat Ascii.zero 50) (repeat Ascii.zero 50) =
      Some (b1, b2) /\
    List.length b1 = 50%nat /\ List.length b2 = 50%nat.
Proof.
  apply (showOTAAkeys_fits_buffers scenario_C
           (repeat Ascii.zero 50) (repeat Ascii.zero 50));
    try (cbn; lia); vm_compute; repeat constructor; discriminate.
Defined.

(** ** The reconciler and the callback *)

Lemma retrieve_fcnt_keeps_material (s : device) :
  devaddr (eepromdata (retrieve_fcnt s)) = devaddr (EEPROM s) /\
  nwkSKey (eepromdata (retrieve_fcnt s)) = nwkSKey (EEPROM s) /\
  appSKey (eepromdata (retrieve_fcnt s)) = appSKey (EEPROM s).
Proof.
  tiers s; simpl; try destruct (_ >? _); simpl; repeat split; reflexivity.
Qed.

(** X5.  [retrieve_fcnt] never alters the session material: in all four
    cells of valid and invalid tiers the device address and the two keys of
    the record in memory and of the record in EEPROM are those that the
    EEPROM held. *)
Theorem retrieve_fcnt_keeps_session_material (s : device) :
  devaddr (eepromdata (retrieve_fcnt s)) = devaddr (EEPROM s) /\
  nwkSKey (eepromdata (retrieve_fcnt s)) = nwkSKey (EEPROM s) /\
  appSKey (eepromdata (retrieve_fcnt s)) = appSKey (EEPROM s) /\
  devaddr (EEPROM (retrieve_fcnt s)) = devaddr (EEPROM s) /\
  nwkSKey (EEPROM (retrieve_fcnt s)) = nwkSKey (EEPROM s) /\
  appSKey (EEPROM (retrieve_fcnt s)) = appSKey (EEPROM s).
Proof.
  tiers s; simpl; try destruct (_ >? _); simpl; repeat split; reflexivity.
Qed.

(** X6.  After [retrieve_fcnt] on valid backup registers, the counter in
    EEPROM is at most 201 behind the counter in use, as long as the EEPROM
    counter plus 201 does not wrap. *)
Theorem retrieve_fcnt_bounds_gap (s : device) :
  fast_valid s ->
  (durable_valid s -> 0 <= fcnt (EEPROM s) /\ fcnt (EEPROM s) + 201 < 2 ^ 32) ->
  effective_counter s <= fcnt (EEPROM (retrieve_fcnt s)) + 201.
Proof.
  intros Hf Hr. apply fast_valid_eqb in Hf. rewrite durable_valid_eqb in Hr.
  unfold effective_counter.
  tiers s; try discriminate; simpl.
  - specialize (Hr eq_refl).
    rewrite (u32_small (fcnt (EEPROM s) + 101)) by lia.
    rewrite (u32_small (fcnt (EEPROM s) + 101 + 100)) by lia.
    destruct (Z.gtb_spec (bkp s BKP_R_FCNT) (fcnt (EEPROM s) + 101 + 100));
      simpl; lia.
  - destruct (_ >? _); simpl; lia.
Qed.

Lemma retrieve_fcnt_bounds_gap_witness :
  effective_counter scenario_C <= fcnt (EEPROM (retrieve_fcnt scenario_C)) + 201.
Proof.
  apply (retrieve_fcnt_bounds_gap scenario_C); [reflexivity | ].
  intros _. vm_compute. split; [discriminate | reflexivity].
Defined.

Section FurtherProperties.
Context {radio : RadioStack}.

(** X7.  [onLmicEvent] never writes the EEPROM and touches no backup
    register but the counter register; an event other than
    [EV_TXCOMPLETE] leaves the backup registers, the record in memory and
    the completion flag as they were. *)
Theorem onLmicEvent_frame (ev : ev_t) (s : device) :
  EEPROM (onLmicEvent ev s) = EEPROM s /\
  (forall i, i <> BKP_R_FCNT ->
   getBackupRegister i (onLmicEvent ev s) = getBackupRegister i s) /\
  xmitcount (onLmicEvent ev s) = xmitcount s /\
  (ev <> EV_TXCOMPLETE ->
   bkp (onLmicEvent ev s) = bkp s /\
   eepromdata (onLmicEvent ev s) = eepromdata s /\
   tx_finished (onLmicEvent ev s) = tx_finished s).
Proof.
  destruct ev; simpl; repeat split; try reflexivity; try congruence.
  intros i Hi. unfold getBackupRegister. simpl.
  destruct (Z.eqb_spec i BKP_R_FCNT); [contradiction | reflexivity].
Qed.

(** *** Whole boots *)

Lemma retrieve_fcnt_joined (s : device) :
  joinedFlag (eepromdata (retrieve_fcnt s)) = true ->
  durable_valid s /\
  joinedFlag (EEPROM s) = true /\
  joinedFlag (EEPROM (retrieve_fcnt s)) = true.
Proof.
  rewrite durable_valid_eqb.
  tiers s; simpl; try destruct (_ >? _); simpl; intros H;
    try discriminate; repeat split; assumption.
Qed.

Lemma retrieve_fcnt_not_joined (s : device) :
  durable_valid s -> joinedFlag (EEPROM s) = false ->
  joinedFlag (eepromdata (retrieve_fcnt s)) = false.
Proof.
  rewrite durable_valid_eqb.
  tiers s; simpl; try destruct (_ >? _); simpl; intros Hd H;
    try discriminate; assumption.
Qed.

Lemma ne_xmit_datavalid : BKP_R_DATAVALID <> BKP_R_XMITCNT.
Proof. discriminate. Qed.

Lemma ne_xmit_fcnt : BKP_R_FCNT <> BKP_R_XMITCNT.
Proof. discriminate. Qed.

Lemma ne_fcnt_xmit : BKP_R_XMITCNT <> BKP_R_FCNT.
Proof. discriminate. Qed.

(** The tiers and the record in memory when [setup] returns. *)
Lemma setup_tiers (s : device) :
  JoinMode s = JOINMODE_OTAA ->
  (forall i, i <> BKP_R_XMITCNT -> bkp (setup s) i = bkp (retrieve_fcnt s) i) /\
  (EEPROM (setup s) = EEPROM (retrieve_fcnt s) \/
   EEPROM (setup s) = eepromdata (setup s)) /\
  (select (at_join_decision s) = NeedsJoin ->
   eepromdata (setup s) = set_joinedFlag false (eepromdata (retrieve_fcnt s)) /\
   EEPROM (setup s) = eepromdata (setup s) /\
   bkp (setup s) BKP_R_XMITCNT = 0) /\
  (select (at_join_decision s) = ResumingSession ->
   eepromdata (setup s) = eepromdata (retrieve_fcnt s) /\
   joinedFlag (eepromdata (retrieve_fcnt s)) = true /\
   xmitcount (retrieve_fcnt s) < REJOIN_LIMIT /\
   bkp (setup s) BKP_R_XMITCNT = u32 (xmitcount (retrieve_fcnt s) + 1)).
Proof.
  intros Hj.
  destruct (at_join_decision_fields s) as (Hdx & Hde & HdE & Hdb & _).
  pose proof (at_join_decision_JoinMode s) as Hj'. rewrite Hj in Hj'.
  rewrite setup_eq.
  remember (at_join_decision s) as d eqn:Ed.
  destruct (already_joined d) eqn:Ha.
  - pose proof (resume_branch d Hj' Ha) as Hr. cbv zeta in Hr.
    remember (digitalWrite HIGH (abp_session (join_policy d))) as d1 eqn:Ed1.
    destruct Hr as (_ & _ & _ & _ & _ & _ & HB & Hbk & He & HE).
    destruct (send_packet_frame d1) as (Fb & _ & _ & Fe & FE).
    rewrite getBackupRegister_eq in HB.
    rewrite Fb, Fe, He, Hde. rewrite HE, HdE, He, Hde in FE.
    rewrite already_joined_eq, Hdx, Hde in Ha. apply andb_prop in Ha.
    destruct Ha as (Hlt & Hjf). apply Z.ltb_lt in Hlt.
    apply Bool.eqb_prop in Hjf.
    repeat match goal with |- _ /\ _ => split end.
    + intros i Hi. rewrite Hbk, Hdb by exact Hi. reflexivity.
    + exact FE.
    + intros Hs. apply select_NeedsJoin in Hs.
      rewrite already_joined_eq, Hdx, Hde, Hjf in Hs.
      apply Z.ltb_lt in Hlt. rewrite Hlt in Hs. discriminate.
    + intros _. rewrite HB, Hdx. repeat split; assumption.
  - pose proof (join_branch d Hj' Ha) as Hr. cbv zeta in Hr.
    remember (digitalWrite HIGH (abp_session (join_policy d))) as d1 eqn:Ed1.
    destruct Hr as (_ & _ & _ & _ & HB & Hbk & He & HE).
    destruct (send_packet_frame d1) as (Fb & _ & _ & Fe & FE).
    rewrite getBackupRegister_eq in HB.
    rewrite Fb, Fe, He, Hde. rewrite HE, He, Hde in FE.
    assert (FE' : EEPROM (send_packet d1) =
                  set_joinedFlag false (eepromdata (retrieve_fcnt s)))
      by (destruct FE as [FE | FE]; exact FE).
    repeat match goal with |- _ /\ _ => split end.
    + intros i Hi. rewrite Hbk, Hdb by exact Hi. reflexivity.
    + right. exact FE'.
    + intros _. repeat split; assumption.
    + intros Hs. apply select_ResumingSession in Hs. congruence.
Qed.

Lemma completion_memory (l : lmic_t) (millis : Z) (d : device) :
  let s' := fst (loop millis (onLmicEvent EV_TXCOMPLETE (with_LMIC l d))) in
  fcnt (eepromdata s') = seqnoUp l /\
  datavalid (eepromdata s') = datavalid (eepromdata d) /\
  (forall i, i <> BKP_R_FCNT -> bkp s' i = bkp d i) /\
  (joinedFlag (eepromdata d) = true ->
   EEPROM s' = EEPROM d /\ joinedFlag (eepromdata s') = true) /\
  (joinedFlag (eepromdata d) = false ->
   EEPROM s' = eepromdata s' /\
   eepromdata s' =
     mk_eepromdata (datavalid (eepromdata d)) (seqnoUp l) true (lmic_devaddr l)
       (memcpy (nwkSKey (eepromdata d)) (lmic_nwkSKey l) 16)
       (memcpy (appSKey (eepromdata d)) (lmic_appSKey l) 16)).
Proof.
  unfold loop, onLmicEvent. simpl.
  destruct (joinedFlag (eepromdata d)) eqn:Ej; simpl;
    repeat match goal with |- _ /\ _ => split end;
    try reflexivity; try (intros H; discriminate);
    try (intros _; split; (reflexivity || assumption)).
  all: intros i Hi; destruct (Z.eqb_spec i BKP_R_FCNT);
    [contradiction | reflexivity].
Qed.

Lemma boot_tiers_valid (b : boot) (s : device) :
  durable_valid (boot_cycle b s) /\
  fast_valid (boot_cycle b s) /\
  getBackupRegister BKP_R_FCNT (boot_cycle b s) =
    fcnt (eepromdata (boot_cycle b s)).
Proof.
  destruct (reset_tiers (wake_kind b) s) as (Hj & _).
  destruct (setup_tiers _ Hj) as (Hbk & HE & HN & HR).
  destruct (retrieve_fcnt_summary (reset (wake_kind b) s))
    as (Rv & RV & Rb & Rc & _).
  cbv zeta in Rv, RV, Rb, Rc. unfold effective_counter in Rc.
  unfold boot_cycle, durable_valid, fast_valid.
  rewrite ?getBackupRegister_eq.
  remember (retrieve_fcnt (reset (wake_kind b) s)) as r eqn:Er.
  assert (Se : fcnt (eepromdata (setup (reset (wake_kind b) s))) =
                 fcnt (eepromdata r) /\
               datavalid (eepromdata (setup (reset (wake_kind b) s))) =
                 DATAVALID).
  { destruct (select (at_join_decision (reset (wake_kind b) s))) eqn:Hs.
    - destruct (HN eq_refl) as (-> & _). split; [reflexivity | exact Rv].
    - destruct (HR eq_refl) as (-> & _). split; [reflexivity | exact Rv]. }
  destruct Se as (Sf & Sv).
  pose proof (Hbk _ ne_xmit_datavalid) as Bd.
  pose proof (Hbk _ ne_xmit_fcnt) as Bf.
  remember (setup (reset (wake_kind b) s)) as d2 eqn:Ed2.
  assert (SV : datavalid (EEPROM d2) = DATAVALID)
    by (destruct HE as [-> | ->]; assumption).
  destruct (completion b) as [(l, millis) | ].
  - destruct (completion_step l millis d2) as (Cf & Cv & CE).
    destruct (completion_memory l millis d2) as (Mf & Mv & _).
    cbv zeta in Cf, Cv, CE, Mf, Mv.
    remember (fst (loop millis (onLmicEvent EV_TXCOMPLETE (with_LMIC l d2))))
      as s' eqn:Es'.
    rewrite Cf, Cv, Mf, Bd.
    split; [ | split; [exact Rb | reflexivity]].
    destruct CE as [-> | (_ & ->)]; assumption.
  - rewrite Bd, Bf, Sf. split; [exact SV | split; [exact Rb | exact Rc]].
Qed.

(** X8.  Whatever the tiers held and however the boot ends, after a boot
    both validity markers hold [DATAVALID] and the counter register of the
    backup domain mirrors the counter of the record in memory. *)
Theorem boot_leaves_tiers_valid (b : boot) (s : device) :
  durable_valid (boot_cycle b s) /\
  fast_valid (boot_cycle b s) /\
  getBackupRegister BKP_R_FCNT (boot_cycle b s) =
    fcnt (eepromdata (boot_cycle b s)).
Proof. exact (boot_tiers_valid b s). Qed.

Lemma decision_eq (b : boot) (s : device) :
  decision b s = select (at_join_decision (reset (wake_kind b) s)).
Proof. reflexivity. Qed.

Lemma boot_xmit (b : boot) (s : device) :
  (fast_valid s -> xmit_in_range s) ->
  (decision b s = NeedsJoin ->
   getBackupRegister BKP_R_XMITCNT (boot_cycle b s) = 0) /\
  (decision b s = ResumingSession ->
   fast_valid s /\ wake_kind b = WarmWake /\
   getBackupRegister BKP_R_XMITCNT s < REJOIN_LIMIT /\
   getBackupRegister BKP_R_XMITCNT (boot_cycle b s) =
     getBackupRegister BKP_R_XMITCNT s + 1).
Proof.
  intros Hr. rewrite decision_eq.
  destruct (reset_tiers (wake_kind b) s) as (Hj & _ & _ & Hw).
  destruct (setup_tiers _ Hj) as (_ & _ & HN & HR).
  destruct (retrieve_fcnt_summary (reset (wake_kind b) s))
    as (_ & _ & _ & _ & _ & Rx & _).
  cbv zeta in Rx.
  assert (Hx : fast_valid (reset (wake_kind b) s) ->
               xmitcount (retrieve_fcnt (reset (wake_kind b) s)) =
               i32 (bkp (reset (wake_kind b) s) BKP_R_XMITCNT)).
  { intros Hf. apply (retrieve_fcnt_fast_valid _ Hf). }
  assert (Hc : forall l millis d, 
             bkp (fst (loop millis (onLmicEvent EV_TXCOMPLETE (with_LMIC l d))))
                 BKP_R_XMITCNT = bkp d BKP_R_XMITCNT).
  { intros l millis d. apply completion_memory. discriminate. }
  unfold boot_cycle. rewrite ?getBackupRegister_eq.
  remember (select (at_join_decision (reset (wake_kind b) s))) as sel eqn:Esel.
  remember (retrieve_fcnt (reset (wake_kind b) s)) as r eqn:Er.
  remember (setup (reset (wake_kind b) s)) as d2 eqn:Ed2.
  assert (Hfin : bkp match completion b with
                     | Some (l, millis) =>
                         fst (loop millis (onLmicEvent EV_TXCOMPLETE (with_LMIC l d2)))
                     | None => d2
                     end BKP_R_XMITCNT = bkp d2 BKP_R_XMITCNT).
  { destruct (completion b) as [(l, millis) | ]; [apply Hc | reflexivity]. }
  rewrite Hfin.
  split; intros Hs.
  - apply (HN Hs).
  - destruct (HR Hs) as (_ & _ & Hlt & HB).
    assert (Hf0 : fast_valid (reset (wake_kind b) s)).
    { destruct Rx as [Hf | Hx3]; [exact Hf | ]. rewrite Hx3 in Hlt.
      exfalso. revert Hlt. apply Z.lt_irrefl. }
    rewrite (Hx Hf0) in Hlt, HB.
    destruct (wake_kind b).
    + unfold fast_valid in Hf0. rewrite getBackupRegister_eq in Hf0.
      rewrite Hw in Hf0, Hlt, HB.
      assert (Hf : fast_valid s) by exact Hf0.
      specialize (Hr Hf). unfold xmit_in_range in Hr.
      rewrite getBackupRegister_eq in Hr. unfold REJOIN_LIMIT in Hr, Hlt.
      rewrite i32_small in Hlt, HB by lia.
      rewrite u32_small in HB by lia.
      repeat split; assumption.
    + destruct Hw as (Hw & _). contradiction.
Qed.

Lemma boot_xmit_range (b : boot) (s : device) :
  (fast_valid s -> xmit_in_range s) -> xmit_in_range (boot_cycle b s).
Proof.
  intros Hr. destruct (boot_xmit b s Hr) as (HN & HR).
  unfold xmit_in_range.
  destruct (decision b s).
  - rewrite (HN eq_refl). unfold REJOIN_LIMIT. lia.
  - destruct (HR eq_refl) as (Hf & _ & Hlt & ->).
    specialize (Hr Hf). unfold xmit_in_range in Hr. lia.
Qed.

(** X9.  The transmit count register stays a count: if it is between 0 and
    [REJOIN_LIMIT] whenever the backup registers are valid, it is so after
    any boot; a boot that joins leaves 0 in it and a boot that resumes
    leaves one more than it found. *)
Theorem boot_keeps_xmit_in_range (b : boot) (s : device) :
  (fast_valid s -> xmit_in_range s) ->
  xmit_in_range (boot_cycle b s) /\
  (decision b s = NeedsJoin ->
   getBackupRegister BKP_R_XMITCNT (boot_cycle b s) = 0) /\
  (decision b s = ResumingSession ->
   getBackupRegister BKP_R_XMITCNT (boot_cycle b s) =
     getBackupRegister BKP_R_XMITCNT s + 1).
Proof.
  intros Hr. destruct (boot_xmit b s Hr) as (HN & HR).
  split; [exact (boot_xmit_range b s Hr) | ].
  split; [exact HN | intros Hs; apply (HR Hs)].
Qed.

Lemma resumed_boots_counted (h : list boot) :
  forall s : device,
  fast_valid s -> xmit_in_range s ->
  Forall (eq ResumingSession) (decisions h s) ->
  Z.of_nat (List.length h) + getBackupRegister BKP_R_XMITCNT s <= REJOIN_LIMIT.
Proof.
  induction h as [ | b h IH]; intros s Hf Hr Hall.
  - cbn. apply Hr.
  - cbn [decisions] in Hall. apply Forall_cons_iff in Hall.
    destruct Hall as (Hb & Hall). symmetry in Hb.
    destruct (boot_xmit b s (fun _ => Hr)) as (_ & HR).
    destruct (HR Hb) as (_ & _ & _ & Hx).
    destruct (boot_tiers_valid b s) as (_ & Hf' & _).
    pose proof (boot_xmit_range b s (fun _ => Hr)) as Hr'.
    specialize (IH _ Hf' Hr' Hall). rewrite Hx in IH.
    cbn [List.length]. lia.
Qed.

(** X10.  At most [REJOIN_LIMIT] boots in a row resume the saved session,
    provided the transmit count register holds a count between 0 and
    [REJOIN_LIMIT] whenever the backup registers are valid (which every boot
    preserves, X9): then a history in which every boot resumes has at most
    300 boots, and at most 300 minus the count when the backup registers are
    valid. *)
Theorem resumed_boots_bounded (h : list boot) (s : device) :
  (fast_valid s -> xmit_in_range s) ->
  Forall (eq ResumingSession) (decisions h s) ->
  Z.of_nat (List.length h) <= REJOIN_LIMIT /\
  (fast_valid s ->
   Z.of_nat (List.length h) + getBackupRegister BKP_R_XMITCNT s <= REJOIN_LIMIT).
Proof.
  intros Hr Hall.
  assert (G : fast_valid s ->
              Z.of_nat (List.length h) + getBackupRegister BKP_R_XMITCNT s
              <= REJOIN_LIMIT).
  { intros Hf. apply resumed_boots_counted; auto. }
  split; [ | exact G].
  destruct h as [ | b h]; [cbn; unfold REJOIN_LIMIT; lia | ].
  pose proof Hall as Hall'. cbn [decisions] in Hall'.
  apply Forall_cons_iff in Hall'. destruct Hall' as (Hb & _). symmetry in Hb.
  destruct (boot_xmit b s Hr) as (_ & HR).
  destruct (HR Hb) as (Hf & _).
  specialize (G Hf). specialize (Hr Hf). unfold xmit_in_range in Hr. lia.
Qed.

(** X11.  A boot whose uplink completes always leaves the device marked as
    joined, in EEPROM and in memory, whether it joined or resumed. *)
Theorem completed_boot_marks_joined (b : boot) (s : device) (l : lmic_t)
  (millis : Z) :
  completion b = Some (l, millis) ->
  joinedFlag (EEPROM (boot_cycle b s)) = true /\
  joinedFlag (eepromdata (boot_cycle b s)) = true.
Proof.
  intros Hc.
  destruct (reset_tiers (wake_kind b) s) as (Hj & _).
  destruct (setup_tiers _ Hj) as (_ & HE & HN & HR).
  pose proof (retrieve_fcnt_joined (reset (wake_kind b) s)) as Rj.
  unfold boot_cycle. rewrite Hc.
  remember (select (at_join_decision (reset (wake_kind b) s))) as sel eqn:Esel.
  remember (retrieve_fcnt (reset (wake_kind b) s)) as r eqn:Er.
  remember (setup (reset (wake_kind b) s)) as d2 eqn:Ed2.
  destruct (completion_memory l millis d2) as (_ & _ & _ & Mt & Mf).
  cbv zeta in Mt, Mf.
  remember (fst (loop millis (onLmicEvent EV_TXCOMPLETE (with_LMIC l d2))))
    as s' eqn:Es'.
  destruct sel.
  - destruct (HN eq_refl) as (He & _).
    assert (Hf : joinedFlag (eepromdata d2) = false) by (rewrite He; reflexivity).
    destruct (Mf Hf) as (M1 & M2). rewrite M1, M2. split; reflexivity.
  - destruct (HR eq_refl) as (He & Hjf & _).
    assert (Ht : joinedFlag (eepromdata d2) = true) by (rewrite He; exact Hjf).
    destruct (Mt Ht) as (M1 & M2). rewrite M1. split; [ | exact M2].
    destruct HE as [-> | ->]; [apply (Rj Hjf) | exact Ht].
Qed.

Lemma already_joined_after_retrieve (s : device) :
  durable_valid s -> fast_valid s -> joinedFlag (EEPROM s) = true ->
  0 <= getBackupRegister BKP_R_XMITCNT s < REJOIN_LIMIT ->
  select (at_join_decision s) = ResumingSession.
Proof.
  intros Hd Hf Hjf Hx.
  destruct (retrieve_fcnt_fast_valid s Hf) as (Rx & _ & _ & _ & _ & _ & Rj).
  apply select_ResumingSession.
  rewrite already_joined_at_decision, already_joined_eq.
  rewrite Rx, (Rj Hd), Hjf. unfold REJOIN_LIMIT in *.
  rewrite i32_small by lia.
  destruct (Z.ltb_spec (getBackupRegister BKP_R_XMITCNT s) 300); [reflexivity | lia].
Qed.

(** X12.  The session that a join delivers is the session that the next boot
    resumes: after a boot that joined and completed its uplink, a wake-up
    with the backup domain intact selects [ResumingSession], hands the
    device address and the keys that the stack held at completion to
    [LMIC_setSession], sets the stack's uplink counter to the counter the
    stack reported, and counts one transmit. *)
Theorem joined_session_is_resumed (b b' : boot) (s : device) (l : lmic_t)
  (millis : Z) :
  completion b = Some (l, millis) -> decision b s = NeedsJoin ->
  wake_kind b' = WarmWake ->
  List.length (nwkSKey (EEPROM s)) = 16%nat ->
  List.length (appSKey (EEPROM s)) = 16%nat ->
  List.length (lmic_nwkSKey l) = 16%nat ->
  List.length (lmic_appSKey l) = 16%nat ->
  let s1 := boot_cycle b s in
  let d := digitalWrite HIGH
             (abp_session (join_policy (at_join_decision (reset WarmWake s1)))) in
  decision b' s1 = ResumingSession /\
  DevAddr d = lmic_devaddr l /\
  NwkSKey d = lmic_nwkSKey l /\
  AppSKey d = lmic_appSKey l /\
  LMIC d = set_seqnoUp (seqnoUp l)
             (LMIC_setSession 1 (lmic_devaddr l) (lmic_nwkSKey l)
                (lmic_appSKey l) (LMIC_reset zero_lmic)) /\
  getBackupRegister BKP_R_XMITCNT (boot_cycle b' s1) = 1.
Proof.
  intros Hc Hdec Hw' Ln La Lln Lla. cbv zeta.
  (* the tiers after the joining boot *)
  assert (T : EEPROM (boot_cycle b s) =
                mk_eepromdata DATAVALID (seqnoUp l) true (lmic_devaddr l)
                  (lmic_nwkSKey l) (lmic_appSKey l) /\
              bkp (boot_cycle b s) BKP_R_DATAVALID = DATAVALID /\
              bkp (boot_cycle b s) BKP_R_FCNT = seqnoUp l /\
              bkp (boot_cycle b s) BKP_R_XMITCNT = 0).
  { rewrite decision_eq in Hdec.
    destruct (reset_tiers (wake_kind b) s) as (Hj & HE0 & _).
    destruct (setup_tiers _ Hj) as (Hbk & _ & HN & _).
    destruct (HN Hdec) as (He & _ & HB).
    destruct (retrieve_fcnt_summary (reset (wake_kind b) s))
      as (Rv & _ & Rb & _).
    destruct (retrieve_fcnt_keeps_material (reset (wake_kind b) s))
      as (_ & Kn & Ka).
    cbv zeta in Rv, Rb. rewrite HE0 in Kn, Ka.
    pose proof (Hbk _ ne_xmit_datavalid) as Bd.
    unfold boot_cycle. rewrite Hc.
    remember (retrieve_fcnt (reset (wake_kind b) s)) as r eqn:Er.
    remember (setup (reset (wake_kind b) s)) as d2 eqn:Ed2.
    destruct (completion_step l millis d2) as (Cf & Cv & _).
    destruct (completion_memory l millis d2) as (_ & _ & Mb & _ & Mf).
    cbv zeta in Cf, Cv, Mb, Mf.
    remember (fst (loop millis (onLmicEvent EV_TXCOMPLETE (with_LMIC l d2))))
      as s' eqn:Es'.
    assert (Hf : joinedFlag (eepromdata d2) = false) by (rewrite He; reflexivity).
    destruct (Mf Hf) as (M1 & M2).
    rewrite M1, M2, Cf, Cv, Bd, (Mb _ ne_fcnt_xmit), HB, He.
    cbn [datavalid nwkSKey appSKey set_joinedFlag].
    rewrite Rv, Kn, Ka, !memcpy_all by assumption.
    repeat split; assumption. }
  destruct T as (TE & Tv & Tf & Tx).
  remember (boot_cycle b s) as s1 eqn:Es1.
  destruct (reset_tiers WarmWake s1) as (Hj2 & HE2 & Hdv2 & Hb2).
  assert (Hd2 : durable_valid (reset WarmWake s1)).
  { apply Hdv2. unfold durable_valid. rewrite TE. reflexivity. }
  assert (Hf2 : fast_valid (reset WarmWake s1)).
  { unfold fast_valid. rewrite getBackupRegister_eq, Hb2. exact Tv. }
  assert (Hsel : select (at_join_decision (reset WarmWake s1)) = ResumingSession).
  { apply already_joined_after_retrieve; try assumption.
    - rewrite HE2, TE. reflexivity.
    - rewrite getBackupRegister_eq, Hb2, Tx. unfold REJOIN_LIMIT. lia. }
  pose proof (resuming_boot _ Hj2 Hsel) as Hr. cbv zeta in Hr.
  destruct (retrieve_fcnt_fast_valid _ Hf2) as (_ & _ & Rc & _).
  rewrite getBackupRegister_eq, Hb2, Tf in Rc.
  remember (digitalWrite HIGH
              (abp_session (join_policy (at_join_decision (reset WarmWake s1)))))
    as d eqn:Ed.
  destruct Hr as (_ & _ & HA & HN & HK & HL & _).
  rewrite HE2, TE in HA, HN, HK. cbn [devaddr nwkSKey appSKey] in HA, HN, HK.
  change (NwkSKey (reset WarmWake s1)) with NwkSKey_init in HN.
  change (AppSKey (reset WarmWake s1)) with AppSKey_init in HK.
  rewrite memcpy_all in HN by (assumption || reflexivity).
  rewrite memcpy_all in HK by (assumption || reflexivity).
  rewrite HA, HN, HK, Rc in HL.
  change (LMIC (reset WarmWake s1)) with zero_lmic in HL.
  assert (Hrange : fast_valid s1 -> xmit_in_range s1).
  { intros _. unfold xmit_in_range. rewrite getBackupRegister_eq, Tx.
    unfold REJOIN_LIMIT. lia. }
  destruct (boot_xmit b' s1 Hrange) as (_ & HR).
  assert (Hdec' : decision b' s1 = ResumingSession)
    by (rewrite decision_eq, Hw'; exact Hsel).
  destruct (HR Hdec') as (_ & _ & _ & Hx').
  rewrite (getBackupRegister_eq BKP_R_XMITCNT s1), Tx in Hx'.
  repeat match goal with |- _ /\ _ => split end; assumption.
Qed.

(** X13.  A join that does not complete is tried again: after a boot that
    selected [NeedsJoin] and was reset before its uplink completed, the next
    boot selects [NeedsJoin] as well, whatever the wake-up and whatever the
    transmit count. *)
Theorem interrupted_join_is_retried (b b' : boot) (s : device) :
  decision b s = NeedsJoin -> completion b = None ->
  decision b' (boot_cycle b s) = NeedsJoin.
Proof.
  intros Hdec Hc. rewrite decision_eq in Hdec.
  destruct (reset_tiers (wake_kind b) s) as (Hj & _).
  destruct (setup_tiers _ Hj) as (_ & _ & HN & _).
  destruct (HN Hdec) as (He & HE & _).
  destruct (retrieve_fcnt_summary (reset (wake_kind b) s)) as (Rv & _).
  cbv zeta in Rv.
  assert (T : datavalid (EEPROM (boot_cycle b s)) = DATAVALID /\
              joinedFlag (EEPROM (boot_cycle b s)) = false).
  { unfold boot_cycle. rewrite Hc.
    remember (retrieve_fcnt (reset (wake_kind b) s)) as r eqn:Er.
    remember (setup (reset (wake_kind b) s)) as d2 eqn:Ed2.
    rewrite HE, He. split; [exact Rv | reflexivity]. }
  destruct T as (Tv & Tj).
  remember (boot_cycle b s) as s1 eqn:Es1.
  rewrite decision_eq.
  destruct (reset_tiers (wake_kind b') s1) as (_ & HE2 & Hdv2 & _).
  apply select_NeedsJoin.
  rewrite already_joined_at_decision, already_joined_eq.
  rewrite retrieve_fcnt_not_joined.
  - apply andb_false_r.
  - apply Hdv2. exact Tv.
  - rewrite HE2. exact Tj.
Qed.

Lemma send_packet_eeprom (d : device) :
  EEPROM (send_packet d) = EEPROM d \/
  fcnt (eepromdata d) mod 100 = 0 /\ EEPROM (send_packet d) = eepromdata d.
Proof.
  unfold send_packet. destruct (negb _); [left; reflexivity | ].
  simpl. destruct (Z.eqb_spec (fcnt (eepromdata d) mod 100) 0) as [E | E].
  - right. split; [exact E | reflexivity].
  - left. reflexivity.
Qed.

Lemma setup_resumed_eeprom (s : device) :
  JoinMode s = JOINMODE_OTAA ->
  select (at_join_decision s) = ResumingSession ->
  EEPROM (setup s) = EEPROM (retrieve_fcnt s) \/
  fcnt (eepromdata (retrieve_fcnt s)) mod 100 = 0 /\
  EEPROM (setup s) = eepromdata (retrieve_fcnt s).
Proof.
  intros Hj Hs. apply select_ResumingSession in Hs.
  destruct (at_join_decision_fields s) as (_ & Hde & HdE & _).
  pose proof (at_join_decision_JoinMode s) as Hj'. rewrite Hj in Hj'.
  rewrite setup_eq.
  remember (at_join_decision s) as d eqn:Ed.
  pose proof (resume_branch d Hj' Hs) as Hr. cbv zeta in Hr.
  remember (digitalWrite HIGH (abp_session (join_policy d))) as d1 eqn:Ed1.
  destruct Hr as (_ & _ & _ & _ & _ & _ & _ & _ & He & HE).
  destruct (send_packet_eeprom d1) as [F | (Fm & F)]; rewrite F.
  - left. rewrite HE, HdE. reflexivity.
  - right. rewrite He, Hde in *. split; [exact Fm | reflexivity].
Qed.

Lemma retrieve_fcnt_fresh_enough (s : device) :
  durable_valid s -> fast_valid s ->
  getBackupRegister BKP_R_FCNT s <= u32 (u32 (fcnt (EEPROM s) + 101) + 100) ->
  EEPROM (retrieve_fcnt s) = EEPROM s /\
  eepromdata (retrieve_fcnt s) = set_fcnt (getBackupRegister BKP_R_FCNT s) (EEPROM s).
Proof.
  intros Hd Hf Hle. apply durable_valid_eqb in Hd. apply fast_valid_eqb in Hf.
  rewrite getBackupRegister_eq in *.
  tiers s; try discriminate. simpl.
  destruct (Z.gtb_spec (bkp s BKP_R_FCNT)
              (u32 (u32 (fcnt (EEPROM s) + 101) + 100))) as [G | G]; [lia | ].
  split; reflexivity.
Qed.

(** X15.  A boot that resumes the session spares the EEPROM: when the
    counter of the backup register is not more than 201 above the counter in
    EEPROM (32-bit), the boot leaves the EEPROM as it was unless the counter
    is a multiple of 100, and then the only change is the counter. *)
Theorem resumed_boot_spares_eeprom (b : boot) (s : device) :
  decision b s = ResumingSession ->
  getBackupRegister BKP_R_FCNT s <= u32 (u32 (fcnt (EEPROM s) + 101) + 100) ->
  (getBackupRegister BKP_R_FCNT s mod 100 <> 0 ->
   EEPROM (boot_cycle b s) = EEPROM s) /\
  (EEPROM (boot_cycle b s) = EEPROM s \/
   EEPROM (boot_cycle b s) = set_fcnt (getBackupRegister BKP_R_FCNT s) (EEPROM s)).
Proof.
  intros Hdec Hle. rewrite decision_eq in Hdec.
  destruct (reset_tiers (wake_kind b) s) as (Hj & HE0 & Hdv & Hw).
  destruct (setup_tiers _ Hj) as (_ & _ & _ & HR).
  destruct (HR Hdec) as (He & Hjf & Hlt & _).
  pose proof (setup_resumed_eeprom _ Hj Hdec) as HS.
  destruct (retrieve_fcnt_joined _ Hjf) as (Hd0 & _).
  destruct (retrieve_fcnt_summary (reset (wake_kind b) s))
    as (_ & _ & _ & _ & _ & Rx & _).
  cbv zeta in Rx.
  assert (Hf0 : fast_valid (reset (wake_kind b) s)).
  { destruct Rx as [Hf | Hx3]; [exact Hf | ]. rewrite Hx3 in Hlt.
    exfalso. revert Hlt. apply Z.lt_irrefl. }
  assert (Hb : bkp (reset (wake_kind b) s) = bkp s).
  { destruct (wake_kind b); [exact Hw | ]. destruct Hw as (Hw & _). contradiction. }
  assert (Hle0 : getBackupRegister BKP_R_FCNT (reset (wake_kind b) s) <=
                 u32 (u32 (fcnt (EEPROM (reset (wake_kind b) s)) + 101) + 100)).
  { rewrite getBackupRegister_eq, Hb, HE0.
    rewrite getBackupRegister_eq in Hle. exact Hle. }
  destruct (retrieve_fcnt_fresh_enough _ Hd0 Hf0 Hle0) as (RE & Re).
  rewrite getBackupRegister_eq, Hb, HE0 in Re. rewrite HE0 in RE.
  rewrite getBackupRegister_eq.
  unfold boot_cycle.
  remember (retrieve_fcnt (reset (wake_kind b) s)) as r eqn:Er.
  remember (setup (reset (wake_kind b) s)) as d2 eqn:Ed2.
  assert (Hfin : EEPROM match completion b with
                        | Some (l, millis) =>
                            fst (loop millis
                                   (onLmicEvent EV_TXCOMPLETE (with_LMIC l d2)))
                        | None => d2
                        end = EEPROM d2).
  { destruct (completion b) as [(l, millis) | ]; [ | reflexivity].
    apply completion_memory. rewrite He. exact Hjf. }
  rewrite Hfin. rewrite RE, Re in HS. cbn [fcnt set_fcnt] in HS.
  split.
  - intros Hm. destruct HS as [HS | (Hm' & _)]; [exact HS | contradiction].
  - destruct HS as [HS | (_ & HS)]; [left | right]; exact HS.
Qed.

(** X16.  Each cold power loss that is not followed by a completed uplink
    raises the stored counter by 101: after a cold boot over a valid EEPROM
    record that is reset before completion, the EEPROM and the backup
    register hold the old EEPROM counter plus 101, and the device is marked
    as not joined. *)
Theorem cold_boot_raises_stored_counter (b : boot) (s : device) :
  wake_kind b = ColdWake -> completion b = None ->
  durable_valid s -> 0 <= fcnt (EEPROM s) -> fcnt (EEPROM s) + 101 < 2 ^ 32 ->
  fcnt (EEPROM (boot_cycle b s)) = fcnt (EEPROM s) + 101 /\
  getBackupRegister BKP_R_FCNT (boot_cycle b s) = fcnt (EEPROM s) + 101 /\
  joinedFlag (EEPROM (boot_cycle b s)) = false.
Proof.
  intros Hw Hc Hd H0 Hwrap.
  destruct (reset_tiers (wake_kind b) s) as (Hj & HE0 & Hdv & Hcold).
  rewrite Hw in Hcold. destruct Hcold as (Hnf & _).
  destruct (setup_tiers _ Hj) as (Hbk & _ & HN & _).
  rewrite Hw in *.
  destruct (retrieve_fcnt_fast_invalid _ Hnf) as (Rx & _ & Rf & Rc).
  specialize (Rc (proj2 Hdv Hd)). rewrite HE0, u32_small in Rc by lia.
  unfold effective_counter in Rc, Rf. rewrite getBackupRegister_eq in Rf.
  assert (Hsel : select (at_join_decision (reset ColdWake s)) = NeedsJoin).
  { apply select_NeedsJoin.
    rewrite already_joined_at_decision, already_joined_eq, Rx. reflexivity. }
  destruct (HN Hsel) as (He & HE & _).
  pose proof (Hbk _ ne_xmit_fcnt) as Bf.
  unfold boot_cycle. rewrite Hc, Hw, getBackupRegister_eq.
  remember (retrieve_fcnt (reset ColdWake s)) as r eqn:Er.
  remember (setup (reset ColdWake s)) as d2 eqn:Ed2.
  rewrite HE, He, Bf, Rf. cbn [fcnt joinedFlag set_joinedFlag].
  repeat split; assumption.
Qed.

(** X19.  [loop] does nothing until the completion flag is set; once it is
    set and the time awake plus the guard of 50 ms is within the interval of
    60 s, [loop] clears the flag and hands [LowPower.shutdown] exactly the
    time that completes the interval. *)
Theorem loop_completes_interval (millis : Z) (s : device) :
  0 <= millis -> millis + 50 <= tx_interval_sec * 1000 ->
  (tx_finished s = false -> loop millis s = (s, None)) /\
  (tx_finished s = true ->
   snd (loop millis s) = Some (tx_interval_sec * 1000 - millis - 50) /\
   tx_finished (fst (loop millis s)) = false).
Proof.
  intros H0 Hm. unfold loop. split; intros Ht; rewrite Ht; [reflexivity | ].
  cbn [fst snd]. split.
  - f_equal. unfold sleep_times, nominal_sleeptime, tx_interval_sec in *.
    rewrite (u32_small (60 * 1000)) by lia.
    rewrite (u32_small (60 * 1000 - millis)) by lia.
    rewrite (u32_small (60 * 1000 - millis - 50)) by lia.
    destruct (Z.gtb_spec ((60 * 1000 - millis - 50) / 1000) 60) as [G | G];
      [ | reflexivity].
    exfalso.
    assert ((60 * 1000 - millis - 50) / 1000 <= 60); [ | lia].
    apply Z.div_le_upper_bound; lia.
  - destruct (negb _); reflexivity.
Qed.

End FurtherProperties.

Lemma loop_completes_interval_witness :
  snd (loop 4000 (with_tx_finished true scenario_C)) = Some 55950.
Proof.
  apply (loop_completes_interval 4000 (with_tx_finished true scenario_C));
    [lia | vm_compute; discriminate | reflexivity].
Defined.

Lemma boot_keeps_xmit_in_range_witness :
  xmit_in_range
    (@boot_cycle sample_stack (mk_boot WarmWake None) scenario_C) /\
  getBackupRegister BKP_R_XMITCNT
    (@boot_cycle sample_stack (mk_boot WarmWake None) scenario_C) = 10 + 1.
Proof.
  assert (Hr : fast_valid scenario_C -> xmit_in_range scenario_C).
  { intros _. unfold xmit_in_range. vm_compute. split; discriminate. }
  destruct (@boot_keeps_xmit_in_range sample_stack (mk_boot WarmWake None)
              scenario_C Hr) as (H1 & _ & H3).
  split; [exact H1 | apply H3; reflexivity].
Defined.

Lemma resumed_boots_bounded_witness :
  (fast_valid scenario_C -> xmit_in_range scenario_C) /\
  Forall (eq ResumingSession)
    (@decisions sample_stack
       [mk_boot WarmWake (Some (joined_lmic 206, 4000)); mk_boot WarmWake None]
       scenario_C) /\
  Z.of_nat
    (List.length
       [mk_boot WarmWake (Some (joined_lmic 206, 4000)); mk_boot WarmWake None])
  + getBackupRegister BKP_R_XMITCNT scenario_C <= REJOIN_LIMIT.
Proof.
  assert (Hr : fast_valid scenario_C -> xmit_in_range scenario_C).
  { intros _. unfold xmit_in_range. vm_compute. split; discriminate. }
  assert (Hall : Forall (eq ResumingSession)
                   (@decisions sample_stack
                      [mk_boot WarmWake (Some (joined_lmic 206, 4000));
                       mk_boot WarmWake None] scenario_C)).
  { vm_compute. repeat constructor. }
  split; [exact Hr | split; [exact Hall | ]].
  destruct (@resumed_boots_bounded sample_stack _ scenario_C Hr Hall) as (_ & H).
  apply H. reflexivity.
Defined.

Lemma completed_boot_marks_joined_witness :
  joinedFlag
    (EEPROM (@boot_cycle sample_stack
               (mk_boot ColdWake (Some (joined_lmic 1, 34000))) fresh_device)) =
  true.
Proof.
  exact (proj1 (@completed_boot_marks_joined sample_stack
                  (mk_boot ColdWake (Some (joined_lmic 1, 34000))) fresh_device
                  (joined_lmic 1) 34000 eq_refl)).
Defined.

Lemma joined_session_is_resumed_witness :
  @decision sample_stack (mk_boot WarmWake None)
    (@boot_cycle sample_stack
       (mk_boot ColdWake (Some (joined_lmic 1, 34000))) fresh_device) =
  ResumingSession.
Proof.
  assert (Hd : @decision sample_stack
                 (mk_boot ColdWake (Some (joined_lmic 1, 34000))) fresh_device =
               NeedsJoin) by (vm_compute; reflexivity).
  pose proof (@joined_session_is_resumed sample_stack
                (mk_boot ColdWake (Some (joined_lmic 1, 34000)))
                (mk_boot WarmWake None) fresh_device (joined_lmic 1) 34000
                eq_refl Hd eq_refl eq_refl eq_refl eq_refl eq_refl) as H.
  cbv zeta in H. exact (proj1 H).
Defined.

Lemma interrupted_join_is_retried_witness :
  @decision sample_stack (mk_boot WarmWake None)
    (@boot_cycle sample_stack (mk_boot ColdWake None) scenario_C) = NeedsJoin.
Proof.
  assert (Hd : @decision sample_stack (mk_boot ColdWake None) scenario_C =
               NeedsJoin) by (vm_compute; reflexivity).
  exact (@interrupted_join_is_retried sample_stack (mk_boot ColdWake None)
           (mk_boot WarmWake None) scenario_C Hd eq_refl).
Defined.

Lemma resumed_boot_spares_eeprom_witness :
  EEPROM (@boot_cycle sample_stack
            (mk_boot WarmWake (Some (joined_lmic 206, 4000))) scenario_C) =
  EEPROM scenario_C.
Proof.
  assert (Hd : @decision sample_stack
                 (mk_boot WarmWake (Some (joined_lmic 206, 4000))) scenario_C =
               ResumingSession) by (vm_compute; reflexivity).
  assert (Hle : getBackupRegister BKP_R_FCNT scenario_C <=
                u32 (u32 (fcnt (EEPROM scenario_C) + 101) + 100))
    by (vm_compute; discriminate).
  assert (Hm : getBackupRegister BKP_R_FCNT scenario_C mod 100 <> 0)
    by (vm_compute; discriminate).
  exact (proj1 (@resumed_boot_spares_eeprom sample_stack
                  (mk_boot WarmWake (Some (joined_lmic 206, 4000))) scenario_C
                  Hd Hle) Hm).
Defined.

Lemma cold_boot_raises_stored_counter_witness :
  fcnt (EEPROM (@boot_cycle sample_stack (mk_boot ColdWake None) scenario_C)) =
  fcnt (EEPROM scenario_C) + 101.
Proof.
  assert (H0 : 0 <= fcnt (EEPROM scenario_C)) by (vm_compute; discriminate).
  assert (Hw : fcnt (EEPROM scenario_C) + 101 < 2 ^ 32) by (vm_compute; reflexivity).
  assert (Hd : durable_valid scenario_C) by reflexivity.
  exact (proj1 (@cold_boot_raises_stored_counter sample_stack
                  (mk_boot ColdWake None) scenario_C eq_refl eq_refl Hd H0 Hw)).
Defined.

Lemma onLmicEvent_frame_witness :
  bkp (@onLmicEvent sample_stack EV_JOINED scenario_C) = bkp scenario_C.
Proof.
  apply (@onLmicEvent_frame sample_stack EV_JOINED scenario_C). discriminate.
Defined.
